(** * users.service.ts: the user directory service

    A shallow embedding of [UsersService] (src/users/users.service.ts) with
    the parts of its collaborators the service relies on: the [Date]
    arithmetic of the search window, [ObjectId] casting, HS256 bearer
    tokens, the expiring key-value cache and the two document collections
    ([User], [Block]) with the query operators the service sends them. *)

From Stdlib Require Import ZArith NArith Bool Ascii String List Lia.
From stdpp Require Import base option gmap strings.
Import ListNotations.
Set Warnings "-register-all".
Local Open Scope Z_scope.

(** * The model *)

(** ** ObjectId

    A 12-byte identifier.  The service receives identifiers as strings
    (the [:id] route parameter, the [id] claim of a token) and the
    collections store them as [ObjectId]; casting accepts 24 hexadecimal
    digits of either case, printing produces lower-case digits.  (The
    12-character raw form that older drivers also cast is left out.) *)
Module ObjectId.

Definition t := N.

Definition hex_digit_value (c : ascii) : option N :=
  let n := N_of_ascii c in
  if ((48 <=? n) && (n <=? 57))%N then Some (n - 48)%N
  else if ((97 <=? n) && (n <=? 102))%N then Some (n - 87)%N
  else if ((65 <=? n) && (n <=? 70))%N then Some (n - 55)%N
  else None.

Fixpoint parse_hex (s : string) (acc : N) : option N :=
  match s with
  | EmptyString => Some acc
  | String c s' =>
      match hex_digit_value c with
      | Some d => parse_hex s' (16 * acc + d)%N
      | None => None
      end
  end.

(** [new Types.ObjectId(s)] / Mongoose's cast of a string to the
    [ObjectId] schema type: [None] stands for the thrown cast error. *)
Definition cast (s : string) : option t :=
  if (String.length s =? 24)%nat then parse_hex s 0%N else None.

Definition hex_digit (d : N) : ascii :=
  if (d <? 10)%N then ascii_of_N (48 + d) else ascii_of_N (87 + d).

Fixpoint hex_digits (k : nat) (n : N) (acc : string) : string :=
  match k with
  | O => acc
  | S k' => hex_digits k' (n / 16)%N (String (hex_digit (n mod 16)%N) acc)
  end.

(** [oid.toHexString()], also what [JSON.stringify] prints for an id. *)
Definition toHexString (o : t) : string := hex_digits 24 o EmptyString.

Definition eqb (a b : t) : bool := N.eqb a b.

End ObjectId.

(** ** Date

    A [Date] is its time value: milliseconds since the epoch.  The
    calendar functions follow ECMA-262 (Day, TimeWithinDay, YearFromTime,
    MonthFromTime, DateFromTime, MakeDay, MakeDate, LocalTime, UTC).  A
    time value beyond 8.64e15 milliseconds on either side of the epoch is
    what [TimeClip] turns into [NaN]: it stands for an Invalid Date. *)
Module JSDate.

Definition t := Z.

Definition msPerDay : Z := 86400000.

Definition Day (tv : Z) : Z := tv / msPerDay.

Definition TimeWithinDay (tv : Z) : Z := tv mod msPerDay.

(** Day number of the first of March of year 0 is [-719468]; the
    proleptic Gregorian calendar repeats every 146097 days. *)
Definition civil_of_day (d : Z) : Z * Z * Z :=
  let z := d + 719468 in
  let era := z / 146097 in
  let doe := z - era * 146097 in
  let yoe := (doe - doe / 1460 + doe / 36524 - doe / 146096) / 365 in
  let doy := doe - (365 * yoe + yoe / 4 - yoe / 100) in
  let mp := (5 * doy + 2) / 153 in
  let dd := doy - (153 * mp + 2) / 5 + 1 in
  let m := if mp <? 10 then mp + 2 else mp - 10 in
  let y := yoe + era * 400 + (if m <=? 1 then 1 else 0) in
  (y, m, dd).

(** The day number of day 1 of month [m] (0 = January) of year [y]. *)
Definition day_of_civil (y m : Z) : Z :=
  let y' := if m <=? 1 then y - 1 else y in
  let era := y' / 400 in
  let yoe := y' - era * 400 in
  let mp := if m <=? 1 then m + 10 else m - 2 in
  let doy := (153 * mp + 2) / 5 in
  let doe := yoe * 365 + yoe / 4 - yoe / 100 + doy in
  era * 146097 + doe - 719468.

Definition YearFromTime (tv : Z) : Z := fst (fst (civil_of_day (Day tv))).

Definition MonthFromTime (tv : Z) : Z := snd (fst (civil_of_day (Day tv))).

Definition DateFromTime (tv : Z) : Z := snd (civil_of_day (Day tv)).

Definition MakeDay (year month date : Z) : Z :=
  let ym := year + month / 12 in
  let mn := month mod 12 in
  day_of_civil ym mn + date - 1.

Definition MakeDate (day time : Z) : Z := day * msPerDay + time.

(** The local time zone, as ECMA-262's [LocalTZA(t, isUTC)]: the offset
    in milliseconds in effect at the UTC instant [t], and the one in
    effect at the local time [t] (they differ around daylight-saving
    transitions). *)
Record Zone := {
  offset_at : Z -> Z;
  offset_at_local : Z -> Z;
}.

(** A zone that keeps one offset all year. *)
Definition fixed (offset : Z) : Zone :=
  {| offset_at := fun _ => offset; offset_at_local := fun _ => offset |}.

Definition LocalTime (zone : Zone) (tv : Z) : Z := tv + offset_at zone tv.

Definition UTC (zone : Zone) (tv : Z) : Z := tv - offset_at_local zone tv.

Definition maxTime : Z := 8640000000000000.

(** Not an Invalid Date. *)
Definition valid (d : t) : bool := (- maxTime <=? d) && (d <=? maxTime).

(** [d.getFullYear()] *)
Definition getFullYear (zone : Zone) (d : t) : Z :=
  YearFromTime (LocalTime zone d).

(** [d.setFullYear(year)]: the same local month, day and time of day in
    another year (29 February overflows into 1 March). *)
Definition setFullYear (zone : Zone) (d : t) (year : Z) : t :=
  let lt := LocalTime zone d in
  UTC zone (MakeDate (MakeDay year (MonthFromTime lt) (DateFromTime lt))
                    (TimeWithinDay lt)).

(** [new Date(year, month, date)]: local midnight of that day; a year
    from 0 to 99 is taken as 1900 + year. *)
Definition make (zone : Zone) (year month date : Z) : t :=
  let yr := if (0 <=? year) && (year <=? 99) then 1900 + year else year in
  UTC zone (MakeDate (MakeDay yr month date) 0).

End JSDate.

(** An offset in milliseconds is read as the zone that keeps it. *)
Coercion JSDate.fixed : Z >-> JSDate.Zone.

(** ** Documents and transfer objects *)

(** User.schema.ts: [name], [username] and [birthdate] are required,
    [username] carries a unique index, [_id] is assigned by the driver. *)
Module User.

Record t := mk {
  _id : ObjectId.t;
  name : string;
  surname : option string;
  username : string;
  birthdate : JSDate.t;
}.

End User.

(** Block.schema.ts: a directed edge, [userId] blocks [blockedUserId]. *)
Module Block.

Record t := mk {
  _id : ObjectId.t;
  userId : ObjectId.t;
  blockedUserId : ObjectId.t;
}.

End Block.

(** dto/CreateUser.dto.ts *)
Record CreateUserDto := {
  c_name : string;
  c_surname : option string;
  c_username : string;
  c_birthdate : JSDate.t;
}.

(** Modelled from the spec: dto/UpdateUser.dto.ts is not among the
    sources; the update body is a partial user ("partial update body"),
    every field of [CreateUserDto] optional. *)
Record UpdateUserDto := {
  u_name : option string;
  u_surname : option string;
  u_username : option string;
  u_birthdate : option JSDate.t;
}.

(** ** JSON

    The cache holds the text [JSON.stringify] prints for a user document.
    A text is represented by the fields it carries, so that [JSON.parse]
    of it gives these fields back; such a text is never the empty string. *)
Module JSON.

Inductive text := Text (u : User.t).

Definition stringify (u : User.t) : text := Text u.

Definition parse (s : text) : User.t := match s with Text u => u end.

End JSON.

(** ** Bearer tokens (jsonwebtoken, HS256)

    Symbolic model of the MAC: a compact token is its payload together
    with the key its signature was computed under, and the signature check
    of [verify] passes exactly when the verifier holds that key.  Any other
    string is [Malformed]. *)
Module Jwt.

Record Payload := { id : string; iat : Z }.

Inductive Token :=
| Signed (p : Payload) (key : string)
| Malformed (raw : string).

(** [jwt.sign({ id }, secret)]; the library adds the issue time. *)
Definition sign (now : JSDate.t) (id : string) (secret : string) : Token :=
  Signed {| id := id; iat := now / 1000 |} secret.

(** [jwt.verify(token, secret)]; [None] is the thrown
    [JsonWebTokenError] ("invalid signature", "jwt malformed"). *)
Definition verify (token : Token) (secret : string) : option Payload :=
  match token with
  | Signed p key => if String.eqb key secret then Some p else None
  | Malformed _ => None
  end.

End Jwt.

(** ** Exceptions *)

Inductive Exception :=
| JsonWebTokenError
| CastError
| BSONError
| TypeError
| SyntaxError
| ValidationError
| MongoDuplicateKey
| Error (message : string).

(** The names the specification gives to the service's own errors. *)
Definition NotFoundError : Exception := Error "User not found".

Definition InvalidOperationError : Exception := Error "You cannot block yourself".

Definition ConflictError : Exception := Error "User already blocked".

Definition InvalidTokenError : Exception := JsonWebTokenError.

(** ** Query documents *)

Inductive IdOp :=
| Ne (o : ObjectId.t)
| Nin (l : list ObjectId.t).

Inductive DateOp :=
| Gte (d : JSDate.t)
| Lte (d : JSDate.t).

(** One entry of a filter on the user collection. *)
Inductive UserCond :=
| FId (ops : list IdOp)                  (* _id: { $ne, $nin } *)
| FUsername (re : string -> bool)        (* username: { $regex } *)
| FBirthdate (ops : list DateOp)         (* birthdate: { $gte, $lte } *)
| FOr (alts : list (list UserCond)).     (* $or: [ filter, ... ] *)

(** A filter document: every entry must hold; [{}] is [[]]. *)
Definition UserFilter := list UserCond.

Definition id_op (x : ObjectId.t) (op : IdOp) : bool :=
  match op with
  | Ne o => negb (ObjectId.eqb x o)
  | Nin l => negb (existsb (ObjectId.eqb x) l)
  end.

Definition date_op (x : JSDate.t) (op : DateOp) : bool :=
  match op with
  | Gte d => d <=? x
  | Lte d => x <=? d
  end.

Fixpoint user_cond (c : UserCond) (u : User.t) : bool :=
  match c with
  | FId ops => forallb (id_op (User._id u)) ops
  | FUsername re => re (User.username u)
  | FBirthdate ops => forallb (date_op (User.birthdate u)) ops
  | FOr alts => existsb (forallb (fun c' => user_cond c' u)) alts
  end.

Definition user_matches (f : UserFilter) (u : User.t) : bool :=
  forallb (fun c => user_cond c u) f.

Definition date_op_castable (op : DateOp) : bool :=
  match op with
  | Gte d => JSDate.valid d
  | Lte d => JSDate.valid d
  end.

(** Whether Mongoose can cast the entry to the schema: a bound of
    [birthdate] must not be an Invalid Date. *)
Fixpoint cond_castable (c : UserCond) : bool :=
  match c with
  | FId _ => true
  | FUsername _ => true
  | FBirthdate ops => forallb date_op_castable ops
  | FOr alts => forallb (forallb cond_castable) alts
  end.

Definition filter_castable (f : UserFilter) : bool := forallb cond_castable f.

(** One entry of a filter on the block collection.  Block.schema.ts
    gives [userId] and [blockedUserId] the type [Types.ObjectId], the
    bson class and not the schema type, so both paths are Mixed: a filter
    value is compared as it is given, never cast, and a string is equal to
    no stored [ObjectId]. *)
Inductive BlockCond :=
| BUserId (o : ObjectId.t)
| BBlockedUserId (o : ObjectId.t)
| BUserIdString (s : string)
| BBlockedUserIdString (s : string)
| BOr (alts : list (list BlockCond)).

Definition BlockFilter := list BlockCond.

Fixpoint block_cond (c : BlockCond) (b : Block.t) : bool :=
  match c with
  | BUserId o => ObjectId.eqb (Block.userId b) o
  | BBlockedUserId o => ObjectId.eqb (Block.blockedUserId b) o
  | BUserIdString _ => false
  | BBlockedUserIdString _ => false
  | BOr alts => existsb (forallb (fun c' => block_cond c' b)) alts
  end.

Definition block_matches (f : BlockFilter) (b : Block.t) : bool :=
  forallb (fun c => block_cond c b) f.

(** ** The world

    The two collections, the cache, the driver's id generator and a log of
    the calls that reached the collections and the cache. *)

Inductive Event :=
| RedisGet (key : string)
| RedisSet (key : string) (seconds : Z)
| UserSave
| UserFind
| UserFindById (o : ObjectId.t)
| UserFindByIdAndUpdate (o : ObjectId.t)
| UserFindByIdAndDelete (o : ObjectId.t)
| BlockSave
| BlockFind
| BlockFindOne
| BlockDeleteMany.

(** Calls that reach the User Directory Store (either collection). *)
Definition store_event (e : Event) : bool :=
  match e with
  | RedisGet _ | RedisSet _ _ => false
  | _ => true
  end.

Record CacheEntry := {
  value : JSON.text;
  expiresAt : JSDate.t;
}.

Record World := {
  users : list User.t;
  blocks : list Block.t;
  redis : gmap string CacheEntry;
  nextId : N;               (* the driver's ObjectId generator *)
  log : list Event;         (* most recent call first *)
}.

Definition set_users (us : list User.t) (w : World) : World :=
  {| users := us; blocks := blocks w; redis := redis w;
     nextId := nextId w; log := log w |}.

Definition set_blocks (bs : list Block.t) (w : World) : World :=
  {| users := users w; blocks := bs; redis := redis w;
     nextId := nextId w; log := log w |}.

Definition set_redis (r : gmap string CacheEntry) (w : World) : World :=
  {| users := users w; blocks := blocks w; redis := r;
     nextId := nextId w; log := log w |}.

Definition set_nextId (n : N) (w : World) : World :=
  {| users := users w; blocks := blocks w; redis := redis w;
     nextId := n; log := log w |}.

Definition record (e : Event) (w : World) : World :=
  {| users := users w; blocks := blocks w; redis := redis w;
     nextId := nextId w; log := e :: log w |}.

Definition empty_world : World :=
  {| users := []; blocks := []; redis := ∅; nextId := 0%N; log := [] |}.

(** ** Promises: state passing with exceptions

    An [async] method either resolves to a value or rejects with the
    exception thrown; what it did to the world before throwing stays. *)
Inductive Outcome (A : Type) :=
| Resolved (a : A)
| Rejected (e : Exception).

Arguments Resolved {A} a.
Arguments Rejected {A} e.

Definition Promise (A : Type) : Type := World -> Outcome A * World.

Definition ret {A} (a : A) : Promise A := fun w => (Resolved a, w).

Definition throw {A} (e : Exception) : Promise A := fun w => (Rejected e, w).

Definition bind {A B} (m : Promise A) (k : A -> Promise B) : Promise B :=
  fun w =>
    match m w with
    | (Resolved a, w') => k a w'
    | (Rejected e, w') => (Rejected e, w')
    end.

Notation "x <- m ;; k" := (bind m (fun x => k))
  (at level 100, m at next level, right associativity).

Notation "m ;;; k" := (bind m (fun _ => k))
  (at level 100, right associativity).

(** Mongoose's cast of a string where the schema wants an [ObjectId]. *)
Definition castId {A} (s : string) (k : ObjectId.t -> Promise A) : Promise A :=
  match ObjectId.cast s with
  | Some o => k o
  | None => throw CastError
  end.

(** [new Types.ObjectId(s)] *)
Definition newObjectId (s : string) : Promise ObjectId.t :=
  match ObjectId.cast s with
  | Some o => ret o
  | None => throw BSONError
  end.

(** ** The cache (ioredis) *)

(** [redis.get(key)]: the value, unless absent or expired. *)
Definition redis_get (now : JSDate.t) (key : string)
  : Promise (option JSON.text) :=
  fun w =>
    (Resolved match redis w !! key with
              | Some e => if now <? expiresAt e then Some (value e) else None
              | None => None
              end,
     record (RedisGet key) w).

(** [redis.set(key, value, 'EX', seconds)] *)
Definition redis_set (now : JSDate.t) (key : string) (v : JSON.text)
    (seconds : Z) : Promise unit :=
  fun w =>
    (Resolved tt,
     record (RedisSet key seconds)
       (set_redis (<[key := {| value := v; expiresAt := now + seconds * 1000 |}]>
                     (redis w)) w)).

(** ** The user collection *)

(** [new this.userModel(dto)]: the document gets its [_id] here. *)
Definition User_new (dto : CreateUserDto) : Promise User.t :=
  fun w =>
    (Resolved (User.mk (nextId w) (c_name dto) (c_surname dto)
                       (c_username dto) (c_birthdate dto)),
     set_nextId (nextId w + 1)%N w).

(** [doc.save()]: required strings must not be empty; the unique index
    on [username] rejects a second document with the same username. *)
Definition User_save (doc : User.t) : Promise User.t :=
  fun w =>
    if String.eqb (User.name doc) "" || String.eqb (User.username doc) ""
    then (Rejected ValidationError, w)
    else if existsb (fun u => String.eqb (User.username u) (User.username doc))
                    (users w)
    then (Rejected MongoDuplicateKey, record UserSave w)
    else (Resolved doc, record UserSave (set_users (users w ++ [doc]) w)).

(** [userModel.find(filter)]: the filter is cast to the schema first, and
    a filter that cannot be cast is never sent. *)
Definition User_find (f : UserFilter) : Promise (list User.t) :=
  fun w =>
    if filter_castable f
    then (Resolved (List.filter (user_matches f) (users w)), record UserFind w)
    else (Rejected CastError, w).

Definition has_id (o : ObjectId.t) (u : User.t) : bool :=
  ObjectId.eqb (User._id u) o.

(** [userModel.findById(id)] *)
Definition User_findById (id : string) : Promise (option User.t) :=
  castId id (fun o w =>
    (Resolved (List.find (has_id o) (users w)), record (UserFindById o) w)).

Definition apply_update (dto : UpdateUserDto) (u : User.t) : User.t :=
  User.mk (User._id u)
    (default (User.name u) (u_name dto))
    (match u_surname dto with Some s => Some s | None => User.surname u end)
    (default (User.username u) (u_username dto))
    (default (User.birthdate u) (u_birthdate dto)).

Fixpoint replace_first (o : ObjectId.t) (u' : User.t) (l : list User.t)
  : list User.t :=
  match l with
  | [] => []
  | u :: l' => if has_id o u then u' :: l' else u :: replace_first o u' l'
  end.

Fixpoint delete_first (o : ObjectId.t) (l : list User.t) : list User.t :=
  match l with
  | [] => []
  | u :: l' => if has_id o u then l' else u :: delete_first o l'
  end.

(** [userModel.findByIdAndUpdate(id, dto, { new: true })]: the fields
    present in [dto] are set; resolves to the document after the update,
    or to [null] when there is none with this id. *)
Definition User_findByIdAndUpdate (id : string) (dto : UpdateUserDto)
  : Promise (option User.t) :=
  castId id (fun o w =>
    match List.find (has_id o) (users w) with
    | None => (Resolved None, record (UserFindByIdAndUpdate o) w)
    | Some u =>
        let u' := apply_update dto u in
        if existsb (fun v => negb (has_id o v)
                             && String.eqb (User.username v) (User.username u'))
                   (users w)
        then (Rejected MongoDuplicateKey, record (UserFindByIdAndUpdate o) w)
        else (Resolved (Some u'),
              record (UserFindByIdAndUpdate o)
                     (set_users (replace_first o u' (users w)) w))
    end).

(** [userModel.findByIdAndDelete(id)] *)
Definition User_findByIdAndDelete (id : string) : Promise (option User.t) :=
  castId id (fun o w =>
    (Resolved (List.find (has_id o) (users w)),
     record (UserFindByIdAndDelete o) (set_users (delete_first o (users w)) w))).

(** ** The block collection *)

(** [new this.blockModel({ blockedUserId, userId })] *)
Definition Block_new (blockedUserId userId : ObjectId.t) : Promise Block.t :=
  fun w =>
    (Resolved (Block.mk (nextId w) userId blockedUserId),
     set_nextId (nextId w + 1)%N w).

Definition Block_save (doc : Block.t) : Promise Block.t :=
  fun w => (Resolved doc, record BlockSave (set_blocks (blocks w ++ [doc]) w)).

Definition Block_find (f : BlockFilter) : Promise (list Block.t) :=
  fun w => (Resolved (List.filter (block_matches f) (blocks w)), record BlockFind w).

Definition Block_findOne (f : BlockFilter) : Promise (option Block.t) :=
  fun w => (Resolved (List.find (block_matches f) (blocks w)), record BlockFindOne w).

Definition Block_deleteMany (f : BlockFilter) : Promise unit :=
  fun w =>
    (Resolved tt,
     record BlockDeleteMany
       (set_blocks (List.filter (fun b => negb (block_matches f b)) (blocks w)) w)).

(** ** UsersService *)

(** What the process is started with: the [JWT_SECRET] environment
    variable and the local time zone. *)
Record Env := {
  JWT_SECRET : option string;
  tza : JSDate.Zone;
}.

(** [process.env.JWT_SECRET || 'secret_key'] *)
Definition secret (env : Env) : string :=
  match JWT_SECRET env with
  | Some s => if String.eqb s "" then "secret_key" else s
  | None => "secret_key"
  end.

Definition jwt_verify (token : Jwt.Token) (key : string)
  : Promise Jwt.Payload :=
  match Jwt.verify token key with
  | Some p => ret p
  | None => throw JsonWebTokenError
  end.

Definition cache_key (userId : string) : string := "user:" ++ userId.

Definition createUser (env : Env) (now : JSDate.t) (createUserDto : CreateUserDto)
  : Promise (User.t * Jwt.Token) :=
  newUser <- User_new createUserDto ;;
  savedUser <- User_save newUser ;;
  let payload := ObjectId.toHexString (User._id savedUser) in
  let token := Jwt.sign now payload (secret env) in
  ret (savedUser, token).

Definition getUsers : Promise (list User.t) := User_find [].

Definition getUser (env : Env) (now : JSDate.t) (token : Jwt.Token)
  : Promise (option User.t) :=
  decodedToken <- jwt_verify token (secret env) ;;
  let userId := Jwt.id decodedToken in
  cachedUser <- redis_get now (cache_key userId) ;;
  match cachedUser with
  | Some text => ret (Some (JSON.parse text))
  | None =>
      user <- User_findById userId ;;
      match user with
      | Some u =>
          redis_set now (cache_key userId) (JSON.stringify u) 3600 ;;;
          ret user
      | None => ret user
      end
  end.

Definition deleteUser (env : Env) (token : Jwt.Token) : Promise bool :=
  decodedToken <- jwt_verify token (secret env) ;;
  let userId := Jwt.id decodedToken in
  User_findByIdAndDelete userId ;;;
  Block_deleteMany [BOr [[BUserIdString userId];
                         [BBlockedUserIdString userId]]] ;;;
  ret true.

Definition blockUser (env : Env) (blockedUserId : string) (token : Jwt.Token)
  : Promise User.t :=
  decodedToken <- jwt_verify token (secret env) ;;
  let userId := Jwt.id decodedToken in
  user <- User_findById userId ;;
  blockedUser <- User_findById blockedUserId ;;
  match blockedUser with
  | None => throw (Error "User not found")
  | Some blockedUser =>
      if String.eqb blockedUserId userId
      then throw (Error "You cannot block yourself")
      else
        match user with
        | None => throw TypeError            (* user._id on null *)
        | Some user =>
            existingBlock <- Block_findOne [BUserId (User._id user);
                                            BBlockedUserId (User._id blockedUser)] ;;
            match existingBlock with
            | Some _ => throw (Error "User already blocked")
            | None =>
                newBlock <- Block_new (User._id blockedUser) (User._id user) ;;
                Block_save newBlock ;;;
                ret blockedUser
            end
        end
  end.

(** The [ageCondition] object of [searchUsers]: [{}] or
    [{ birthdate: { $gte, $lte } }].  Each [new Date()] reads the clock:
    [now1] is the first reading of a branch, [now2] the second reading of
    the branch with both bounds. *)
Definition ageCondition_at (zone : JSDate.Zone) (now1 now2 : JSDate.t)
    (minAge maxAge : option Z) : UserFilter :=
  match minAge, maxAge with
  | Some minAge, Some maxAge =>
      if minAge <=? maxAge then
        let minBirthdate :=
          JSDate.setFullYear zone now1 (JSDate.getFullYear zone now1 - maxAge) in
        let maxBirthdate :=
          JSDate.setFullYear zone now2 (JSDate.getFullYear zone now2 - minAge) in
        [FBirthdate [Gte minBirthdate; Lte maxBirthdate]]
      else []
  | Some minAge, None =>
      let currentYear := JSDate.getFullYear zone now1 in
      let minBirthYear := currentYear - minAge in
      let minBirthdate := JSDate.make zone minBirthYear 0 1 in
      [FBirthdate [Lte minBirthdate]]
  | None, Some maxAge =>
      let maxBirthdate :=
        JSDate.setFullYear zone now1 (JSDate.getFullYear zone now1 - maxAge) in
      [FBirthdate [Gte maxBirthdate]]
  | None, None => []
  end.

(** The same when both readings give the same millisecond. *)
Definition ageCondition (tza : JSDate.Zone) (now : JSDate.t)
    (minAge maxAge : option Z) : UserFilter :=
  ageCondition_at tza now now minAge maxAge.

Section Search.

(** [RegExp pattern flags]: the compiled regular expression as the
    predicate "finds a match in", or [None] for a pattern that is not a
    regular expression ([SyntaxError]). *)
Variable RegExp : string -> string -> option (string -> bool).

Definition newRegExp (pattern flags : string) : Promise (string -> bool) :=
  match RegExp pattern flags with
  | Some re => ret re
  | None => throw SyntaxError
  end.

Definition searchUsers_at (env : Env) (now1 now2 : JSDate.t)
    (username : string) (token : Jwt.Token) (minAge maxAge : option Z)
  : Promise (list User.t) :=
  decodedToken <- jwt_verify token (secret env) ;;
  let userId := Jwt.id decodedToken in
  blockedUsers <- Block_find [BUserIdString userId] ;;
  let blockedUserIds := List.map Block._id blockedUsers in
  let ageCondition := ageCondition_at (tza env) now1 now2 minAge maxAge in
  self <- newObjectId userId ;;
  re <- newRegExp username "i" ;;
  let conditions :=
    [FId [Ne self; Nin blockedUserIds];
     FOr [[FUsername re]; ageCondition]] in
  users <- User_find conditions ;;
  ret users.

(** [searchUsers] when its clock readings give the same millisecond. *)
Definition searchUsers (env : Env) (now : JSDate.t) (username : string)
    (token : Jwt.Token) (minAge maxAge : option Z) : Promise (list User.t) :=
  searchUsers_at env now now username token minAge maxAge.

End Search.

Definition unblockUser (env : Env) (blockedUserId : string) (token : Jwt.Token)
  : Promise bool :=
  decodedToken <- jwt_verify token (secret env) ;;
  let userId := Jwt.id decodedToken in
  a <- newObjectId userId ;;
  b <- newObjectId blockedUserId ;;
  Block_deleteMany [BUserId a; BBlockedUserId b] ;;;
  ret true.

Definition updateUser (env : Env) (now : JSDate.t) (token : Jwt.Token)
    (updateUserDto : UpdateUserDto) : Promise User.t :=
  decodedToken <- jwt_verify token (secret env) ;;
  let userId := Jwt.id decodedToken in
  updatedUser <- User_findByIdAndUpdate userId updateUserDto ;;
  match updatedUser with
  | None => throw (Error "User not found")
  | Some u =>
      redis_set now (cache_key userId) (JSON.stringify u) 3600 ;;;
      ret u
  end.

(** ** Notions of the specification *)

Definition to_lower (c : ascii) : ascii :=
  let n := N_of_ascii c in
  if ((65 <=? n) && (n <=? 90))%N then ascii_of_N (n + 32) else c.

Fixpoint lower (s : string) : string :=
  match s with
  | EmptyString => EmptyString
  | String c s' => String (to_lower c) (lower s')
  end.

Fixpoint includes (p s : string) : bool :=
  String.prefix p s ||
  match s with
  | EmptyString => false
  | String _ s' => includes p s'
  end.

(** "[s] case-insensitively contains [fragment]" *)
Definition includes_ci (fragment s : string) : bool :=
  includes (lower fragment) (lower s).

Definition is_alnum (c : ascii) : bool :=
  let n := N_of_ascii c in
  (((48 <=? n) && (n <=? 57)) || ((65 <=? n) && (n <=? 90))
   || ((97 <=? n) && (n <=? 122)))%N.

(** A regular-expression engine for search patterns made of letters and
    digits only: on those, [/p/i] finds a match in [s] exactly when [s]
    contains [p] up to the case of letters.  Other patterns are outside
    this engine. *)
Definition literal_RegExp (pattern flags : string) : option (string -> bool) :=
  if forallb is_alnum (list_ascii_of_string pattern) && String.eqb flags "i"
  then Some (includes_ci pattern)
  else None.

(** The [_id] of each block document of the actor: what
    [blockedUsers.map(({ _id }) => _id)] gives when [blockedUsers] are the
    actor's block documents.  (At run time [searchUsers] finds none of
    them, its filter being a string on a Mixed path, and passes the empty
    list to [$nin].) *)
Definition excluded_ids (o : ObjectId.t) (w : World) : list ObjectId.t :=
  List.map Block._id
    (List.filter (fun b => ObjectId.eqb (Block.userId b) o) (blocks w)).

(** The actor's outgoing block set: the users the actor has blocked. *)
Definition blocked_by (o : ObjectId.t) (w : World) : list ObjectId.t :=
  List.map Block.blockedUserId
    (List.filter (fun b => ObjectId.eqb (Block.userId b) o) (blocks w)).

(** "today - n years": the present instant moved [n] calendar years back. *)
Definition years_ago (tza : JSDate.Zone) (now : JSDate.t) (n : Z) : JSDate.t :=
  JSDate.setFullYear tza now (JSDate.getFullYear tza now - n).

(** Local midnight of 1 January of the year [n] years before the current
    one, as [new Date(currentYear - n, 0, 1)] builds it. *)
Definition new_year_ago (tza : JSDate.Zone) (now : JSDate.t) (n : Z)
  : JSDate.t :=
  JSDate.make tza (JSDate.getFullYear tza now - n) 0 1.

(** The age predicate in the words of the specification; the empty filter
    stands for "no age predicate". *)
Definition claimed_ageCondition (tza : JSDate.Zone) (now : JSDate.t)
    (minAge maxAge : option Z) : UserFilter :=
  match minAge, maxAge with
  | Some mn, Some mx =>
      if mn <=? mx
      then [FBirthdate [Gte (years_ago tza now mx); Lte (years_ago tza now mn)]]
      else []
  | Some mn, None => [FBirthdate [Lte (years_ago tza now mn)]]
  | None, Some mx => [FBirthdate [Gte (years_ago tza now mx)]]
  | None, None => []
  end.

(** What the code builds: the same, except that a lone [minAge] is
    measured from the start of the year. *)
Definition built_ageCondition (tza : JSDate.Zone) (now : JSDate.t)
    (minAge maxAge : option Z) : UserFilter :=
  match minAge, maxAge with
  | Some mn, Some mx =>
      if mn <=? mx
      then [FBirthdate [Gte (years_ago tza now mx); Lte (years_ago tza now mn)]]
      else []
  | Some mn, None => [FBirthdate [Lte (new_year_ago tza now mn)]]
  | None, Some mx => [FBirthdate [Gte (years_ago tza now mx)]]
  | None, None => []
  end.

(** The live value of a key at instant [now]. *)
Definition cached (now : JSDate.t) (key : string) (w : World)
  : option JSON.text :=
  match redis w !! key with
  | Some e => if now <? expiresAt e then Some (value e) else None
  | None => None
  end.

(** The calls a promise made: the events it put in front of the log. *)
Definition calls {A} (m : Promise A) (w : World) (evs : list Event) : Prop :=
  log (snd (m w)) = evs ++ log w.

(** ** A running example *)

Definition env0 : Env := {| JWT_SECRET := None; tza := 0 |}.

(** An empty directory whose id generator stands at [...0a]. *)
Definition w0 : World := set_nextId 10%N empty_world.

(** 2026-11-03T12:00:00Z *)
Definition t_now : JSDate.t := 1793707200000.

Definition alice_dto : CreateUserDto :=
  {| c_name := "Alice"; c_surname := None; c_username := "alice";
     c_birthdate := 0 |}.

Definition bob_dto : CreateUserDto :=
  {| c_name := "Bob"; c_surname := Some "Builder"; c_username := "bob";
     c_birthdate := 0 |}.

Definition alice : User.t := User.mk 10%N "Alice" None "alice" 0.

Definition bob : User.t := User.mk 11%N "Bob" (Some "Builder") "bob" 0.

Definition alice_token : Jwt.Token :=
  Jwt.sign t_now "00000000000000000000000a" "secret_key".

Definition bob_token : Jwt.Token :=
  Jwt.sign t_now "00000000000000000000000b" "secret_key".

(** Alice and Bob have signed up. *)
Definition w_two : World :=
  {| users := [alice; bob]; blocks := []; redis := ∅; nextId := 12%N;
     log := [UserSave; UserSave] |}.

(** ... and Alice has blocked Bob. *)
Definition w_blocked : World :=
  {| users := [alice; bob];
     blocks := [Block.mk 12%N 10%N 11%N];
     redis := ∅; nextId := 13%N;
     log := [BlockSave; BlockFindOne; UserFindById 11%N; UserFindById 10%N;
             UserSave; UserSave] |}.

(** Born 2006-06-01T00:00:00Z: twenty years old on 2026-11-03. *)
Definition carol : User.t := User.mk 12%N "Carol" None "carol" 1149120000000.

Definition alice_payload : Jwt.Payload :=
  {| Jwt.id := "00000000000000000000000a"; Jwt.iat := 1793707200 |}.

Definition carol_token : Jwt.Token :=
  Jwt.sign t_now "00000000000000000000000c" "secret_key".

(** The directory after Alice has fetched her own record once. *)
Definition w_alice_cached : World := snd (getUser env0 t_now alice_token w_two).

Definition rename_alice : UpdateUserDto :=
  {| u_name := Some "Alicia"; u_surname := Some "Keys";
     u_username := None; u_birthdate := None |}.

(** Bob has blocked Alice, Alice has blocked Bob, Bob has blocked Carol. *)
Definition w_feud : World :=
  {| users := [alice; bob; carol];
     blocks := [Block.mk 13%N 11%N 10%N; Block.mk 14%N 10%N 11%N;
                Block.mk 15%N 11%N 12%N];
     redis := ∅; nextId := 16%N; log := [] |}.

(** ** UsersController (users.controllers.ts) *)

Definition is_space (c : ascii) : bool := Ascii.eqb c " ".

(** [s.split(' ')]: the pieces between single spaces, empty pieces kept. *)
Fixpoint split_space (s : string) : list string :=
  match s with
  | EmptyString => [EmptyString]
  | String c s' =>
      if is_space c then EmptyString :: split_space s'
      else match split_space s' with
           | [] => [String c EmptyString]
           | piece :: pieces => String c piece :: pieces
           end
  end.

Fixpoint no_space (s : string) : bool :=
  match s with
  | EmptyString => true
  | String c s' => negb (is_space c) && no_space s'
  end.

(** [extractTokenFromHeader]: [authHeader?.split(' ')[1]], and [null] for
    a missing header, a missing second piece or an empty one. *)
Definition extractTokenFromHeader (authHeader : option string)
  : option string :=
  match authHeader with
  | None => None
  | Some h =>
      match nth_error (split_space h) 1 with
      | Some bearerToken =>
          if String.eqb bearerToken "" then None else Some bearerToken
      | None => None
      end
  end.

(** A route handler either throws [BadRequestException] itself or
    returns the promise of the service method it calls. *)
Inductive Handled (A : Type) :=
| BadRequestException (message : string)
| Returns (p : Promise A).
Arguments BadRequestException {A} message.
Arguments Returns {A} p.

Module UsersController.

Section Routes.

Variable RegExp : string -> string -> option (string -> bool).

(** The token a compact string denotes. *)
Variable token_of : string -> Jwt.Token.

Definition createUser (env : Env) (now : JSDate.t)
    (createUserDto : CreateUserDto) : Handled (User.t * Jwt.Token) :=
  Returns (createUser env now createUserDto).

Definition getUsers : Handled (list User.t) := Returns getUsers.

Definition getUser (env : Env) (now : JSDate.t) (authHeader : option string)
  : Handled (option User.t) :=
  match extractTokenFromHeader authHeader with
  | None => BadRequestException "Missing or invalid Authorization header"
  | Some token => Returns (getUser env now (token_of token))
  end.

Definition deleteUser (env : Env) (authHeader : option string)
  : Handled bool :=
  match extractTokenFromHeader authHeader with
  | None => BadRequestException "Missing or invalid Authorization header"
  | Some token => Returns (deleteUser env (token_of token))
  end.

Definition blockUser (env : Env) (authHeader : option string) (id : string)
  : Handled User.t :=
  match extractTokenFromHeader authHeader with
  | None => BadRequestException "Missing or invalid Authorization header"
  | Some token => Returns (blockUser env id (token_of token))
  end.

Definition searchUser (env : Env) (now : JSDate.t)
    (authHeader : option string) (username : string)
    (minAge maxAge : option Z) : Handled (list User.t) :=
  match extractTokenFromHeader authHeader with
  | None => BadRequestException "Missing or invalid Authorization header"
  | Some token =>
      Returns (searchUsers RegExp env now username (token_of token) minAge maxAge)
  end.

Definition unblockUser (env : Env) (authHeader : option string) (id : string)
  : Handled bool :=
  match extractTokenFromHeader authHeader with
  | None => BadRequestException "Missing or invalid Authorization header"
  | Some token => Returns (unblockUser env id (token_of token))
  end.

Definition updateUser (env : Env) (now : JSDate.t)
    (authHeader : option string) (updateUserDto : UpdateUserDto)
  : Handled User.t :=
  match extractTokenFromHeader authHeader with
  | None => BadRequestException "Missing or invalid Authorization header"
  | Some token => Returns (updateUser env now (token_of token) updateUserDto)
  end.

End Routes.

End UsersController.

(** The world after the two lookups every [blockUser] starts with. *)
Definition looked_up (a b : ObjectId.t) (w : World) : World :=
  record (UserFindById b) (record (UserFindById a) w).

(** ** Invariants of the directory *)

(** No two users share an [_id], no two share a [username], and every
    [_id] in use lies below the id generator. *)
Definition well_formed (w : World) : Prop :=
  List.NoDup (List.map User._id (users w)) /\
  List.NoDup (List.map User.username (users w)) /\
  List.Forall (fun u => (User._id u < nextId w)%N) (users w).

(** The ordered pair a block document stands for. *)
Definition edge (b : Block.t) : ObjectId.t * ObjectId.t :=
  (Block.userId b, Block.blockedUserId b).


(** Same users, blocks and cache (the log and the id generator apart). *)
Definition same_data (w w' : World) : Prop :=
  users w' = users w /\ blocks w' = blocks w /\ redis w' = redis w.

(** * Properties *)

(** ** Identifiers and dates *)

Example hex_print : ObjectId.toHexString 2748%N = "000000000000000000000abc"%string.
Proof. reflexivity. Qed.

Example hex_cast_lower : ObjectId.cast "000000000000000000000abc" = Some 2748%N.
Proof. reflexivity. Qed.

Example hex_cast_upper : ObjectId.cast "000000000000000000000ABC" = Some 2748%N.
Proof. reflexivity. Qed.

Example hex_cast_short : ObjectId.cast "abc" = None.
Proof. reflexivity. Qed.

(** 2026-11-03T12:00:00Z is 1793707200000. *)
Example date_fields :
  (JSDate.YearFromTime 1793707200000, JSDate.MonthFromTime 1793707200000,
   JSDate.DateFromTime 1793707200000) = (2026, 10, 3).
Proof. vm_compute. reflexivity. Qed.

Example date_epoch : JSDate.make 0 1970 0 1 = 0.
Proof. vm_compute. reflexivity. Qed.

Example date_2000_03_01 : JSDate.make 0 2000 2 1 = 951868800000.
Proof. vm_compute. reflexivity. Qed.

Example date_leap_overflow :
  (* 2024-02-29T00:00Z moved to 2023 is 2023-03-01T00:00Z *)
  JSDate.setFullYear 0 1709164800000 2023 = JSDate.make 0 2023 2 1.
Proof. vm_compute. reflexivity. Qed.

Example date_two_digit_year : JSDate.make 0 26 0 1 = JSDate.make 0 1926 0 1.
Proof. vm_compute. reflexivity. Qed.

(** Printing an id and casting the text gives the id back, as long as
    the id fits in 12 bytes. *)
Lemma hex_digit_value_hex_digit d :
  (d < 16)%N -> ObjectId.hex_digit_value (ObjectId.hex_digit d) = Some d.
Proof.
  intros H. destruct d as [| q]; [reflexivity |].
  do 4 (destruct q as [q | q |]; try reflexivity); exfalso; lia.
Qed.

Lemma parse_hex_digits k : forall n acc a,
  ObjectId.parse_hex (ObjectId.hex_digits k n acc) a
  = ObjectId.parse_hex acc (a * 16 ^ N.of_nat k + n mod 16 ^ N.of_nat k)%N.
Proof.
  induction k as [| k IH]; intros n acc a.
  - cbn [ObjectId.hex_digits]. f_equal. cbn. rewrite N.mod_1_r. lia.
  - cbn [ObjectId.hex_digits]. rewrite IH. cbn [ObjectId.parse_hex].
    rewrite hex_digit_value_hex_digit by (apply N.mod_lt; lia).
    f_equal. rewrite Nat2N.inj_succ, N.pow_succ_r by lia.
    rewrite (N.Div0.mod_mul_r n 16 (16 ^ N.of_nat k)). lia.
Qed.

Lemma length_hex_digits k : forall n acc,
  String.length (ObjectId.hex_digits k n acc) = (k + String.length acc)%nat.
Proof.
  induction k as [| k IH]; intros n acc; cbn [ObjectId.hex_digits].
  - reflexivity.
  - rewrite IH. cbn. lia.
Qed.

Lemma cast_toHexString o :
  (o < 2 ^ 96)%N -> ObjectId.cast (ObjectId.toHexString o) = Some o.
Proof.
  intros H. unfold ObjectId.cast, ObjectId.toHexString.
  rewrite length_hex_digits. cbn [String.length Nat.add Nat.eqb].
  rewrite parse_hex_digits. cbn [ObjectId.parse_hex]. f_equal.
  rewrite N.mul_0_l, N.add_0_l. apply N.mod_small.
  change (16 ^ N.of_nat 24)%N with (2 ^ 96)%N. exact H.
Qed.

(** ** Reasoning about promises *)

Lemma jwt_verify_ok token key p w :
  Jwt.verify token key = Some p ->
  jwt_verify token key w = (Resolved p, w).
Proof. intros H. unfold jwt_verify. now rewrite H. Qed.

Lemma jwt_verify_inv token key p w w' :
  jwt_verify token key w = (Resolved p, w') ->
  Jwt.verify token key = Some p /\ w' = w.
Proof.
  unfold jwt_verify. destruct (Jwt.verify token key) as [q|]; cbn.
  - intros [= -> ->]. auto.
  - discriminate.
Qed.

Lemma bind_resolved {A B} (m : Promise A) (k : A -> Promise B) w b w' :
  bind m k w = (Resolved b, w') ->
  exists a w1, m w = (Resolved a, w1) /\ k a w1 = (Resolved b, w').
Proof.
  unfold bind. destruct (m w) as [[a|e] w1]; [eauto | discriminate].
Qed.

Lemma bind_step {A B} (m : Promise A) (k : A -> Promise B) w a w1 :
  m w = (Resolved a, w1) -> bind m k w = k a w1.
Proof. intros H. unfold bind. now rewrite H. Qed.

Lemma castId_ok {A} s o (k : ObjectId.t -> Promise A) :
  ObjectId.cast s = Some o -> castId s k = k o.
Proof. intros H. unfold castId. now rewrite H. Qed.

Lemma castId_resolved {A} s (k : ObjectId.t -> Promise A) w a w' :
  castId s k w = (Resolved a, w') ->
  exists o, ObjectId.cast s = Some o /\ k o w = (Resolved a, w').
Proof.
  unfold castId. destruct (ObjectId.cast s) as [o|]; [eauto | discriminate].
Qed.

Lemma ObjectId_eqb_eq a b : ObjectId.eqb a b = true <-> a = b.
Proof. apply N.eqb_eq. Qed.

(** ** The running example *)

Example signup_alice_bob :
  (a <- createUser env0 t_now alice_dto ;;
   b <- createUser env0 t_now bob_dto ;;
   ret (a, b)) w0
  = (Resolved ((alice, alice_token), (bob, bob_token)), w_two).
Proof. vm_compute. reflexivity. Qed.

Example alice_blocks_bob :
  blockUser env0 "00000000000000000000000b" alice_token w_two
  = (Resolved bob, w_blocked).
Proof. vm_compute. reflexivity. Qed.

(** ** Search *)

Lemma block_matches_userId o b :
  block_matches [BUserId o] b = ObjectId.eqb (Block.userId b) o.
Proof. cbn. now rewrite andb_true_r. Qed.

Lemma block_matches_userId_string s b :
  block_matches [BUserIdString s] b = false.
Proof. reflexivity. Qed.

Lemma filter_false {A} (l : list A) : List.filter (fun _ => false) l = [].
Proof. induction l; auto. Qed.

Lemma conditions_castable self ids re age :
  filter_castable [FId [Ne self; Nin ids]; FOr [[FUsername re]; age]]
  = filter_castable age.
Proof.
  unfold filter_castable. cbn [forallb cond_castable].
  now rewrite !andb_true_r.
Qed.

Lemma conditions_match self re age u :
  user_matches [FId [Ne self; Nin []]; FOr [[FUsername re]; age]] u
  = negb (ObjectId.eqb (User._id u) self)
    && (re (User.username u) || user_matches age u).
Proof.
  unfold user_matches. cbn [forallb user_cond existsb id_op].
  now rewrite !andb_true_r, orb_false_r.
Qed.

(** What a search comes to, for any regular-expression engine and any two
    clock readings: the block filter finds nothing, so nobody is excluded
    but the actor; a date bound that is an Invalid Date makes the cast of
    the user filter fail. *)
Lemma searchUsers_at_outcome
    RegExp env now1 now2 username token minAge maxAge w p o re :
  Jwt.verify token (secret env) = Some p ->
  ObjectId.cast (Jwt.id p) = Some o ->
  RegExp username "i"%string = Some re ->
  fst (searchUsers_at RegExp env now1 now2 username token minAge maxAge w)
  = if filter_castable (ageCondition_at (tza env) now1 now2 minAge maxAge)
    then Resolved
           (List.filter
              (fun u =>
                 negb (ObjectId.eqb (User._id u) o)
                 && (re (User.username u)
                     || user_matches
                          (ageCondition_at (tza env) now1 now2 minAge maxAge) u))
              (users w))
    else Rejected CastError.
Proof.
  intros Hv Hc Hre. unfold searchUsers_at.
  rewrite (bind_step _ _ _ _ _ (jwt_verify_ok _ _ _ _ Hv)).
  unfold bind at 1. unfold Block_find at 1. cbv beta iota.
  rewrite (filter_ext _ _ (block_matches_userId_string (Jwt.id p))).
  rewrite filter_false. cbn [List.map].
  unfold newObjectId. rewrite Hc.
  unfold bind at 1. unfold ret at 1. cbv beta iota.
  unfold newRegExp. rewrite Hre.
  unfold bind, ret, User_find. rewrite conditions_castable.
  destruct (filter_castable (ageCondition_at (tza env) now1 now2 minAge maxAge));
    [| reflexivity].
  cbn [fst]. f_equal. apply filter_ext. intros u. apply conditions_match.
Qed.

Lemma searchUsers_resolves RegExp env now username token minAge maxAge w p o re :
  Jwt.verify token (secret env) = Some p ->
  ObjectId.cast (Jwt.id p) = Some o ->
  RegExp username "i"%string = Some re ->
  filter_castable (ageCondition (tza env) now minAge maxAge) = true ->
  fst (searchUsers RegExp env now username token minAge maxAge w)
  = Resolved
      (List.filter
         (fun u =>
            negb (ObjectId.eqb (User._id u) o)
            && (re (User.username u)
                || user_matches (ageCondition (tza env) now minAge maxAge) u))
         (users w)).
Proof.
  intros Hv Hc Hre Hd. unfold searchUsers, ageCondition in *.
  rewrite (searchUsers_at_outcome _ _ _ _ _ _ _ _ _ _ _ _ Hv Hc Hre).
  now rewrite Hd.
Qed.

(** [C1] After Alice has blocked Bob, Alice's search for "bob" returns
    Bob.  The exclusion list is built from the ids of the block documents
    ([blockedUsers.map(({ _id }) => _id)], here the id [...0c]), not from
    the ids of the users they block; and at run time it is empty, since
    [blockModel.find({ userId })] compares a string on a Mixed path and
    finds no document.  Either way Bob's id is not in it.  The age bound
    given here (only 200-year-olds) matches nobody, so Bob is found through
    his username alone. *)
Theorem C1_search_returns_blocked_user :
  In 11%N (blocked_by 10%N w_blocked) /\
  Jwt.verify alice_token (secret env0)
    = Some {| Jwt.id := "00000000000000000000000a"; Jwt.iat := 1793707200 |} /\
  ObjectId.cast "00000000000000000000000a" = Some (User._id alice) /\
  User._id bob = 11%N /\
  excluded_ids 10%N w_blocked = [12%N] /\
  user_matches (ageCondition (tza env0) t_now (Some 200) None) bob = false /\
  fst (searchUsers literal_RegExp env0 t_now "bob" alice_token (Some 200) None
         w_blocked)
  = Resolved [bob].
Proof. vm_compute. repeat split; auto. Qed.

(** [C2] With neither age bound (or with [minAge > maxAge]) the second
    alternative of [$or] is the empty filter [{}], which every document
    satisfies: Alice's search for "zzz" returns Bob, whose username does not
    contain "zzz". *)
Theorem C2_search_without_age_returns_everyone :
  includes_ci "zzz" (User.username bob) = false /\
  ageCondition (tza env0) t_now None None = [] /\
  ageCondition (tza env0) t_now (Some 40) (Some 30) = [] /\
  blocks w_two = [] /\
  fst (searchUsers literal_RegExp env0 t_now "zzz" alice_token None None w_two)
  = Resolved [bob] /\
  fst (searchUsers literal_RegExp env0 t_now "zzz" alice_token (Some 40) (Some 30)
         w_two)
  = Resolved [bob].
Proof. vm_compute. repeat split; auto. Qed.

(** The same for every engine and every directory: without an age
    condition the username plays no part in the result. *)
Lemma search_without_age_ignores_username
    RegExp env now username token w p o re :
  Jwt.verify token (secret env) = Some p ->
  ObjectId.cast (Jwt.id p) = Some o ->
  RegExp username "i"%string = Some re ->
  fst (searchUsers RegExp env now username token None None w)
  = Resolved
      (List.filter (fun u => negb (ObjectId.eqb (User._id u) o)) (users w)).
Proof.
  intros Hv Hc Hre.
  rewrite (searchUsers_resolves RegExp env now username token None None w p o re
             Hv Hc Hre eq_refl).
  f_equal. apply filter_ext. intros u. cbn.
  now rewrite orb_true_r, andb_true_r.
Qed.

(** ** The age window *)

Lemma user_matches_birthdate ops u :
  user_matches [FBirthdate ops] u = forallb (date_op (User.birthdate u)) ops.
Proof. cbn. apply andb_true_r. Qed.

Lemma user_matches_window lo hi u :
  user_matches [FBirthdate [Gte lo; Lte hi]] u = true
  <-> lo <= User.birthdate u <= hi.
Proof.
  rewrite user_matches_birthdate. cbn. rewrite andb_true_r, andb_true_iff.
  rewrite !Z.leb_le. tauto.
Qed.

Lemma user_matches_lte hi u :
  user_matches [FBirthdate [Lte hi]] u = true <-> User.birthdate u <= hi.
Proof.
  rewrite user_matches_birthdate. cbn. rewrite andb_true_r. apply Z.leb_le.
Qed.

Lemma user_matches_gte lo u :
  user_matches [FBirthdate [Gte lo]] u = true <-> lo <= User.birthdate u.
Proof.
  rewrite user_matches_birthdate. cbn. rewrite andb_true_r. apply Z.leb_le.
Qed.

Lemma user_matches_empty u : user_matches [] u = true.
Proof. reflexivity. Qed.

(** [C3] On 2026-11-03 with only [minAge = 20], "today - 20 years" is
    2006-11-03 and the claimed predicate accepts Carol, born 2006-06-01 and
    twenty years old; the code's bound is [new Date(2006, 0, 1)], the start
    of 2006, and its predicate rejects her.  With [maxAge = 120] added, the
    two-sided branch bounds the birthdate by 2006-11-03 and accepts her. *)
Theorem C3_lone_minAge_rejects_a_twenty_year_old :
  years_ago 0 t_now 20 = 1162555200000 /\
  new_year_ago 0 t_now 20 = 1136073600000 /\
  User.birthdate carol = 1149120000000 /\
  user_matches (claimed_ageCondition 0 t_now (Some 20) None) carol = true /\
  user_matches (ageCondition 0 t_now (Some 20) None) carol = false /\
  user_matches (ageCondition 0 t_now (Some 20) (Some 120)) carol = true.
Proof. vm_compute. repeat split; reflexivity. Qed.

(** The age condition case by case: it is the claimed one except for a
    lone [minAge], which is measured from the start of the year. *)
Lemma ageCondition_cases tza now minAge maxAge :
  ageCondition tza now minAge maxAge
  = built_ageCondition tza now minAge maxAge.
Proof.
  unfold ageCondition, built_ageCondition, years_ago, new_year_ago.
  destruct minAge as [mn|], maxAge as [mx|]; try reflexivity.
Qed.

Lemma ageCondition_agrees_unless_lone_minAge tza now minAge maxAge :
  (minAge = None \/ maxAge <> None) ->
  ageCondition tza now minAge maxAge
  = claimed_ageCondition tza now minAge maxAge.
Proof.
  intros H. unfold ageCondition, claimed_ageCondition, years_ago.
  destruct minAge as [mn|], maxAge as [mx|]; try reflexivity.
  destruct H as [H | H]; [discriminate | congruence].
Qed.

(** ** The cache in front of the user collection *)

Lemma redis_get_eq now key w :
  redis_get now key w = (Resolved (cached now key w), record (RedisGet key) w).
Proof. reflexivity. Qed.

Lemma getUser_hit env now token w p text :
  Jwt.verify token (secret env) = Some p ->
  cached now (cache_key (Jwt.id p)) w = Some text ->
  getUser env now token w
  = (Resolved (Some (JSON.parse text)),
     record (RedisGet (cache_key (Jwt.id p))) w).
Proof.
  intros Hv Hc. unfold getUser.
  rewrite (bind_step _ _ _ _ _ (jwt_verify_ok _ _ _ _ Hv)).
  rewrite (bind_step _ _ _ _ _ (redis_get_eq _ _ _)).
  now rewrite Hc.
Qed.

Lemma getUser_miss_found env now token w p o u :
  Jwt.verify token (secret env) = Some p ->
  cached now (cache_key (Jwt.id p)) w = None ->
  ObjectId.cast (Jwt.id p) = Some o ->
  List.find (has_id o) (users w) = Some u ->
  getUser env now token w
  = (Resolved (Some u),
     record (RedisSet (cache_key (Jwt.id p)) 3600)
       (set_redis
          (<[cache_key (Jwt.id p) :=
               {| value := JSON.stringify u; expiresAt := now + 3600 * 1000 |}]>
             (redis w))
          (record (UserFindById o) (record (RedisGet (cache_key (Jwt.id p))) w)))).
Proof.
  intros Hv Hc Ho Hu. unfold getUser.
  rewrite (bind_step _ _ _ _ _ (jwt_verify_ok _ _ _ _ Hv)).
  rewrite (bind_step _ _ _ _ _ (redis_get_eq _ _ _)).
  rewrite Hc. unfold User_findById. rewrite (castId_ok _ _ _ Ho).
  unfold bind at 1. cbn [users record]. rewrite Hu. reflexivity.
Qed.

Lemma getUser_miss_absent env now token w p o :
  Jwt.verify token (secret env) = Some p ->
  cached now (cache_key (Jwt.id p)) w = None ->
  ObjectId.cast (Jwt.id p) = Some o ->
  List.find (has_id o) (users w) = None ->
  getUser env now token w
  = (Resolved None,
     record (UserFindById o) (record (RedisGet (cache_key (Jwt.id p))) w)).
Proof.
  intros Hv Hc Ho Hu. unfold getUser.
  rewrite (bind_step _ _ _ _ _ (jwt_verify_ok _ _ _ _ Hv)).
  rewrite (bind_step _ _ _ _ _ (redis_get_eq _ _ _)).
  rewrite Hc. unfold User_findById. rewrite (castId_ok _ _ _ Ho).
  unfold bind at 1. cbn [users record]. rewrite Hu. reflexivity.
Qed.

(** [C4] [getUser] consults the cache first.  On a hit it resolves to the
    parsed snapshot, leaves users, blocks and cache as they are and calls
    nothing but the cache.  On a miss it reads the user collection; a user
    found is written to the cache under the subject's key with an expiry of
    3600 seconds and returned; when there is none it resolves to [null] and
    the cache is left as it is. *)
Theorem C4_getUser_cache_aside env now token w p :
  Jwt.verify token (secret env) = Some p ->
  let key := cache_key (Jwt.id p) in
  let m := getUser env now token in
  (forall text,
      cached now key w = Some text ->
      fst (m w) = Resolved (Some (JSON.parse text)) /\
      calls m w [RedisGet key] /\
      Forall (fun e => store_event e = false) [RedisGet key] /\
      users (snd (m w)) = users w /\ blocks (snd (m w)) = blocks w /\
      redis (snd (m w)) = redis w) /\
  (forall o u,
      cached now key w = None ->
      ObjectId.cast (Jwt.id p) = Some o ->
      List.find (has_id o) (users w) = Some u ->
      fst (m w) = Resolved (Some u) /\
      calls m w [RedisSet key 3600; UserFindById o; RedisGet key] /\
      redis (snd (m w))
      = <[key := {| value := JSON.stringify u;
                    expiresAt := now + 3600 * 1000 |}]> (redis w) /\
      users (snd (m w)) = users w /\ blocks (snd (m w)) = blocks w) /\
  (forall o,
      cached now key w = None ->
      ObjectId.cast (Jwt.id p) = Some o ->
      List.find (has_id o) (users w) = None ->
      fst (m w) = Resolved None /\
      calls m w [UserFindById o; RedisGet key] /\
      redis (snd (m w)) = redis w /\
      users (snd (m w)) = users w /\ blocks (snd (m w)) = blocks w).
Proof.
  intros Hv key m. unfold calls. repeat split.
  all: try (subst m; erewrite getUser_hit by eassumption; reflexivity).
  all: try (subst m; erewrite getUser_miss_found by eassumption; reflexivity).
  all: try (subst m; erewrite getUser_miss_absent by eassumption; reflexivity).
  repeat constructor.
Qed.

Lemma C4_getUser_witness :
  fst (getUser env0 (t_now + 1000) alice_token w_alice_cached)
    = Resolved (Some alice) /\
  fst (getUser env0 t_now alice_token w_two) = Resolved (Some alice) /\
  fst (getUser env0 t_now carol_token w_two) = Resolved None.
Proof.
  split; [| split].
  - apply (proj1 (C4_getUser_cache_aside env0 (t_now + 1000) alice_token
                    w_alice_cached alice_payload eq_refl)
             (JSON.Text alice)).
    vm_compute. reflexivity.
  - apply (proj1 (proj2 (C4_getUser_cache_aside env0 t_now alice_token
                           w_two alice_payload eq_refl))
             10%N alice); vm_compute; reflexivity.
  - apply (proj2 (proj2 (C4_getUser_cache_aside env0 t_now carol_token w_two
                           {| Jwt.id := "00000000000000000000000c";
                              Jwt.iat := 1793707200 |} eq_refl))
             12%N); vm_compute; reflexivity.
Defined.

(** ** Blocking *)

Lemma User_findById_eq s o w :
  ObjectId.cast s = Some o ->
  User_findById s w
  = (Resolved (List.find (has_id o) (users w)), record (UserFindById o) w).
Proof. intros H. unfold User_findById. now rewrite (castId_ok _ _ _ H). Qed.

Ltac block_prelude Hv Ha Hb :=
  unfold blockUser;
  rewrite (bind_step _ _ _ _ _ (jwt_verify_ok _ _ _ _ Hv));
  rewrite (bind_step _ _ _ _ _ (User_findById_eq _ _ _ Ha));
  rewrite (bind_step _ _ _ _ _ (User_findById_eq _ _ _ Hb));
  cbn [users record].

(** A target that resolves to no user: "User not found". *)
Lemma blockUser_not_found env target token w p a b :
  Jwt.verify token (secret env) = Some p ->
  ObjectId.cast (Jwt.id p) = Some a ->
  ObjectId.cast target = Some b ->
  List.find (has_id b) (users w) = None ->
  fst (blockUser env target token w) = Rejected NotFoundError.
Proof. intros Hv Ha Hb Hu. block_prelude Hv Ha Hb. now rewrite Hu. Qed.

(** The target written exactly as the token's subject: "You cannot block
    yourself". *)
Lemma blockUser_same_string env target token w p a u :
  Jwt.verify token (secret env) = Some p ->
  target = Jwt.id p ->
  ObjectId.cast (Jwt.id p) = Some a ->
  List.find (has_id a) (users w) = Some u ->
  fst (blockUser env target token w) = Rejected InvalidOperationError.
Proof.
  intros Hv -> Ha Hu. block_prelude Hv Ha Ha. rewrite Hu.
  now rewrite String.eqb_refl.
Qed.

(** An edge that is already there: "User already blocked". *)
Lemma blockUser_conflict env target token w p a b ua ub e :
  Jwt.verify token (secret env) = Some p ->
  ObjectId.cast (Jwt.id p) = Some a ->
  ObjectId.cast target = Some b ->
  List.find (has_id a) (users w) = Some ua ->
  List.find (has_id b) (users w) = Some ub ->
  String.eqb target (Jwt.id p) = false ->
  List.find (block_matches [BUserId (User._id ua); BBlockedUserId (User._id ub)])
            (blocks w) = Some e ->
  fst (blockUser env target token w) = Rejected ConflictError.
Proof.
  intros Hv Ha Hb Hua Hub Hne He. block_prelude Hv Ha Hb.
  rewrite Hub, Hne, Hua. unfold bind at 1, Block_findOne at 1.
  cbn [blocks record]. now rewrite He.
Qed.

(** Otherwise the edge is stored and the target's record returned. *)
Lemma blockUser_success env target token w p a b ua ub :
  Jwt.verify token (secret env) = Some p ->
  ObjectId.cast (Jwt.id p) = Some a ->
  ObjectId.cast target = Some b ->
  List.find (has_id a) (users w) = Some ua ->
  List.find (has_id b) (users w) = Some ub ->
  String.eqb target (Jwt.id p) = false ->
  List.find (block_matches [BUserId (User._id ua); BBlockedUserId (User._id ub)])
            (blocks w) = None ->
  exists w',
    blockUser env target token w = (Resolved ub, w') /\
    blocks w' = blocks w ++ [Block.mk (nextId w) (User._id ua) (User._id ub)] /\
    users w' = users w /\ redis w' = redis w.
Proof.
  intros Hv Ha Hb Hua Hub Hne He. block_prelude Hv Ha Hb.
  rewrite Hub, Hne, Hua. unfold bind at 1, Block_findOne at 1.
  cbn [blocks record]. rewrite He.
  unfold bind, Block_new, Block_save, ret. cbn.
  eexists. split; [reflexivity |]. cbn. repeat split; reflexivity.
Qed.

(** [C5] The self-block check compares the two strings
    ([blockedUserId === userId]) while the lookups cast them to
    [ObjectId]: Alice's id written in upper case resolves to Alice, is not
    equal to the lower-case subject of her token, and the edge
    (Alice, Alice) is stored. *)
Theorem C5_blockUser_self_block_in_upper_case :
  Jwt.verify alice_token (secret env0) = Some alice_payload /\
  ObjectId.cast (Jwt.id alice_payload) = Some (User._id alice) /\
  ObjectId.cast "00000000000000000000000A" = Some (User._id alice) /\
  fst (blockUser env0 "00000000000000000000000A" alice_token w_two)
    = Resolved alice /\
  blocks (snd (blockUser env0 "00000000000000000000000A" alice_token w_two))
    = [Block.mk 12%N (User._id alice) (User._id alice)].
Proof. vm_compute. repeat split; reflexivity. Qed.

(** ** Updating *)

Lemma find_has_id o l u : List.find (has_id o) l = Some u -> has_id o u = true.
Proof. intros H. now apply find_some in H. Qed.

Lemma has_id_apply_update o dto u :
  has_id o (apply_update dto u) = has_id o u.
Proof. reflexivity. Qed.

Lemma find_replace_first o u' l u :
  List.find (has_id o) l = Some u ->
  has_id o u' = true ->
  List.find (has_id o) (replace_first o u' l) = Some u'.
Proof.
  intros Hf Hid. induction l as [| v l IH]; cbn in *; [discriminate |].
  destruct (has_id o v) eqn:Hv; cbn.
  - now rewrite Hid.
  - rewrite Hv. now apply IH.
Qed.

(** What a resolved [updateUser] has done. *)
Lemma updateUser_resolved env now token dto w u w' :
  updateUser env now token dto w = (Resolved u, w') ->
  exists p o u0,
    Jwt.verify token (secret env) = Some p /\
    ObjectId.cast (Jwt.id p) = Some o /\
    List.find (has_id o) (users w) = Some u0 /\
    u = apply_update dto u0 /\
    w' = record (RedisSet (cache_key (Jwt.id p)) 3600)
           (set_redis
              (<[cache_key (Jwt.id p) :=
                   {| value := JSON.stringify u;
                      expiresAt := now + 3600 * 1000 |}]> (redis w))
              (record (UserFindByIdAndUpdate o)
                 (set_users (replace_first o u (users w)) w))).
Proof.
  unfold updateUser. intros H.
  apply bind_resolved in H as (p & w1 & Hv & H).
  apply jwt_verify_inv in Hv as [Hv ->].
  apply bind_resolved in H as (r & w2 & Hu & H).
  unfold User_findByIdAndUpdate in Hu.
  apply castId_resolved in Hu as (o & Ho & Hu).
  destruct (List.find (has_id o) (users w)) as [u0|] eqn:Hf.
  - destruct (existsb _ (users w)); [discriminate |].
    injection Hu as <- <-.
    unfold bind, redis_set, ret in H. cbn in H. injection H as <- <-.
    exists p, o, u0. repeat split; auto.
  - injection Hu as <- <-. discriminate H.
Qed.

(** [C6] After a resolved [updateUser], the user collection holds the
    updated record, the cache entry of the subject is the snapshot of that
    record with a fresh expiry of 3600 seconds, and a [getUser] with the
    same token before that expiry resolves to the updated record from the
    cache. *)
Theorem C6_update_then_fetch env now now' token dto w u w' :
  updateUser env now token dto w = (Resolved u, w') ->
  now' < now + 3600 * 1000 ->
  exists p o,
    Jwt.verify token (secret env) = Some p /\
    ObjectId.cast (Jwt.id p) = Some o /\
    List.find (has_id o) (users w') = Some u /\
    redis w' !! cache_key (Jwt.id p)
      = Some {| value := JSON.stringify u; expiresAt := now + 3600 * 1000 |} /\
    getUser env now' token w'
      = (Resolved (Some u), record (RedisGet (cache_key (Jwt.id p))) w').
Proof.
  intros H Hlt.
  apply updateUser_resolved in H as (p & o & u0 & Hv & Ho & Hf & Hu & ->).
  exists p, o. split; [exact Hv |]. split; [exact Ho |].
  assert (Hid : has_id o u = true).
  { subst u. rewrite has_id_apply_update. eapply find_has_id; eauto. }
  assert (Hr : forall w0 : World,
             redis (record (RedisSet (cache_key (Jwt.id p)) 3600)
                      (set_redis
                         (<[cache_key (Jwt.id p) :=
                              {| value := JSON.stringify u;
                                 expiresAt := now + 3600 * 1000 |}]> (redis w))
                         w0))
               !! cache_key (Jwt.id p)
             = Some {| value := JSON.stringify u;
                       expiresAt := now + 3600 * 1000 |}).
  { intros w0. cbn [redis record set_redis]. apply lookup_insert_eq. }
  split; [| split].
  - cbn [users record set_redis set_users]. eapply find_replace_first; eauto.
  - apply Hr.
  - rewrite (getUser_hit env now' token _ p (JSON.stringify u) Hv);
      [reflexivity |].
    unfold cached. rewrite Hr. cbn [expiresAt value].
    apply Z.ltb_lt in Hlt. now rewrite Hlt.
Qed.

Lemma C6_update_then_fetch_witness :
  exists p o,
    Jwt.verify alice_token (secret env0) = Some p /\
    ObjectId.cast (Jwt.id p) = Some o /\
    List.find (has_id o)
      (users (snd (updateUser env0 t_now alice_token rename_alice w_alice_cached)))
      = Some (User.mk 10%N "Alicia" (Some "Keys") "alice" 0) /\
    redis (snd (updateUser env0 t_now alice_token rename_alice w_alice_cached))
      !! cache_key (Jwt.id p)
      = Some {| value := JSON.stringify (User.mk 10%N "Alicia" (Some "Keys") "alice" 0);
                expiresAt := t_now + 3600 * 1000 |} /\
    getUser env0 (t_now + 5) alice_token
      (snd (updateUser env0 t_now alice_token rename_alice w_alice_cached))
      = (Resolved (Some (User.mk 10%N "Alicia" (Some "Keys") "alice" 0)),
         record (RedisGet (cache_key (Jwt.id p)))
           (snd (updateUser env0 t_now alice_token rename_alice w_alice_cached))).
Proof.
  apply (C6_update_then_fetch env0 t_now (t_now + 5) alice_token rename_alice
           w_alice_cached).
  - vm_compute. reflexivity.
  - vm_compute. reflexivity.
Defined.

(** ** Deleting and unblocking *)

Lemma block_matches_either o b :
  block_matches [BOr [[BUserId o]; [BBlockedUserId o]]] b
  = ObjectId.eqb (Block.userId b) o || ObjectId.eqb (Block.blockedUserId b) o.
Proof. cbn. now rewrite !andb_true_r, orb_false_r. Qed.

Lemma block_matches_pair a b e :
  block_matches [BUserId a; BBlockedUserId b] e
  = ObjectId.eqb (Block.userId e) a && ObjectId.eqb (Block.blockedUserId e) b.
Proof. cbn. now rewrite andb_true_r. Qed.

(** What a resolved [deleteUser] has done. *)
Lemma block_matches_either_string s b :
  block_matches [BOr [[BUserIdString s]; [BBlockedUserIdString s]]] b = false.
Proof. reflexivity. Qed.

Lemma filter_true {A} (l : list A) : List.filter (fun _ => true) l = l.
Proof. induction l as [| x l IH]; cbn; [reflexivity | now rewrite IH]. Qed.

(** What [deleteUser] does for a verified token whose subject is an id:
    the user document goes, and the filter of [deleteMany], two strings on
    Mixed paths, matches no block document. *)
Lemma deleteUser_eq env token w p o :
  Jwt.verify token (secret env) = Some p ->
  ObjectId.cast (Jwt.id p) = Some o ->
  deleteUser env token w
  = (Resolved true,
     record BlockDeleteMany
       (set_blocks (blocks w)
          (record (UserFindByIdAndDelete o)
             (set_users (delete_first o (users w)) w)))).
Proof.
  intros Hv Ho. unfold deleteUser.
  rewrite (bind_step _ _ _ _ _ (jwt_verify_ok _ _ _ _ Hv)).
  unfold User_findByIdAndDelete. rewrite (castId_ok _ _ _ Ho).
  unfold bind, Block_deleteMany, ret. cbn [blocks record set_users].
  do 3 f_equal.
  rewrite (filter_ext _ (fun _ => true)); [apply filter_true |].
  intros b. now rewrite block_matches_either_string.
Qed.

(** What a resolved [deleteUser] has done. *)
Lemma deleteUser_resolved env token w r w' :
  deleteUser env token w = (Resolved r, w') ->
  exists p o,
    Jwt.verify token (secret env) = Some p /\
    ObjectId.cast (Jwt.id p) = Some o /\
    r = true /\
    w' = record BlockDeleteMany
           (set_blocks (blocks w)
              (record (UserFindByIdAndDelete o)
                 (set_users (delete_first o (users w)) w))).
Proof.
  intros H.
  destruct (Jwt.verify token (secret env)) as [p |] eqn:Hv.
  - destruct (ObjectId.cast (Jwt.id p)) as [o |] eqn:Ho.
    + rewrite (deleteUser_eq _ _ _ _ _ Hv Ho) in H. injection H as <- <-.
      exists p, o. repeat split; assumption.
    + unfold deleteUser in H.
      rewrite (bind_step _ _ _ _ _ (jwt_verify_ok _ _ _ _ Hv)) in H.
      unfold User_findByIdAndDelete, castId in H. rewrite Ho in H.
      discriminate H.
  - unfold deleteUser, bind, jwt_verify in H. rewrite Hv in H. discriminate H.
Qed.

(** [deleteUser] resolves for every verified token whose subject is an
    id, whether or not the user is still there. *)
Lemma deleteUser_resolves env token w p o :
  Jwt.verify token (secret env) = Some p ->
  ObjectId.cast (Jwt.id p) = Some o ->
  fst (deleteUser env token w) = Resolved true.
Proof. intros Hv Ho. now rewrite (deleteUser_eq _ _ _ _ _ Hv Ho). Qed.

(** [C7] [deleteUser] passes the token's subject, a string, as the value
    of [userId] and [blockedUserId] in the filter of [deleteMany]; both
    are Mixed paths, the string is not cast and equals no stored
    [ObjectId].  Bob has blocked Alice, Alice has blocked Bob, Bob has
    blocked Carol: Alice's [deleteUser] resolves to success, her user
    document is gone, and the three block documents are all still there,
    two of them naming her. *)
Theorem C7_deleteUser_leaves_the_edges :
  Jwt.verify alice_token (secret env0) = Some alice_payload /\
  ObjectId.cast (Jwt.id alice_payload) = Some (User._id alice) /\
  fst (deleteUser env0 alice_token w_feud) = Resolved true /\
  users (snd (deleteUser env0 alice_token w_feud)) = [bob; carol] /\
  blocks (snd (deleteUser env0 alice_token w_feud))
    = [Block.mk 13%N 11%N (User._id alice); Block.mk 14%N (User._id alice) 11%N;
       Block.mk 15%N 11%N 12%N].
Proof. vm_compute. repeat split; reflexivity. Qed.

(** For every directory: [deleteUser] leaves the block collection as it
    is. *)
Lemma deleteUser_keeps_blocks env token w :
  blocks (snd (deleteUser env token w)) = blocks w.
Proof.
  destruct (Jwt.verify token (secret env)) as [p |] eqn:Hv.
  - destruct (ObjectId.cast (Jwt.id p)) as [o |] eqn:Ho.
    + now rewrite (deleteUser_eq _ _ _ _ _ Hv Ho).
    + unfold deleteUser.
      rewrite (bind_step _ _ _ _ _ (jwt_verify_ok _ _ _ _ Hv)).
      unfold User_findByIdAndDelete, castId. now rewrite Ho.
  - unfold deleteUser, bind, jwt_verify. now rewrite Hv.
Qed.

(** [C8] For a verified token and a target that is an id, [unblockUser]
    resolves to [{ success: true }] whatever the collections hold; it
    removes the block documents of the ordered pair (actor, target) and no
    other, leaves the users and the cache as they are, and changes nothing
    when there is no such document. *)
Theorem C8_unblockUser env target token w p a b :
  Jwt.verify token (secret env) = Some p ->
  ObjectId.cast (Jwt.id p) = Some a ->
  ObjectId.cast target = Some b ->
  let w' := snd (unblockUser env target token w) in
  fst (unblockUser env target token w) = Resolved true /\
  blocks w'
  = List.filter (fun e => negb (ObjectId.eqb (Block.userId e) a
                                && ObjectId.eqb (Block.blockedUserId e) b))
                (blocks w) /\
  (forall e, In e (blocks w') <->
             In e (blocks w) /\ ~ (Block.userId e = a /\ Block.blockedUserId e = b)) /\
  ((forall e, In e (blocks w) ->
              ~ (Block.userId e = a /\ Block.blockedUserId e = b)) ->
   blocks w' = blocks w) /\
  users w' = users w /\ redis w' = redis w.
Proof.
  intros Hv Ha Hb w'.
  assert (E : unblockUser env target token w
              = (Resolved true,
                 record BlockDeleteMany
                   (set_blocks
                      (List.filter
                         (fun e => negb (ObjectId.eqb (Block.userId e) a
                                         && ObjectId.eqb (Block.blockedUserId e) b))
                         (blocks w)) w))).
  { unfold unblockUser.
    rewrite (bind_step _ _ _ _ _ (jwt_verify_ok _ _ _ _ Hv)).
    unfold newObjectId. rewrite Ha, Hb.
    unfold bind, ret, Block_deleteMany. cbn. do 3 f_equal.
    apply filter_ext. intros e. now rewrite andb_true_r. }
  subst w'. rewrite E. cbn [fst snd blocks users redis record set_blocks].
  assert (P : forall e,
             negb (ObjectId.eqb (Block.userId e) a
                   && ObjectId.eqb (Block.blockedUserId e) b) = true
             <-> ~ (Block.userId e = a /\ Block.blockedUserId e = b)).
  { intros e. rewrite negb_true_iff, andb_false_iff.
    rewrite <- !not_true_iff_false, !ObjectId_eqb_eq.
    destruct (N.eq_dec (Block.userId e) a); tauto. }
  split; [reflexivity |]. split; [reflexivity |].
  split; [| split; [| split; reflexivity]].
  - intros e. rewrite filter_In, P. reflexivity.
  - intros Hnone. apply forallb_filter_id, forallb_forall.
    intros e He. apply P. now apply Hnone.
Qed.

Lemma C8_unblockUser_witness :
  (fst (unblockUser env0 "00000000000000000000000b" alice_token w_feud)
     = Resolved true /\
   blocks (snd (unblockUser env0 "00000000000000000000000b" alice_token w_feud))
     = [Block.mk 13%N 11%N 10%N; Block.mk 15%N 11%N 12%N]) /\
  (fst (unblockUser env0 "00000000000000000000000c" alice_token w_feud)
     = Resolved true /\
   blocks (snd (unblockUser env0 "00000000000000000000000c" alice_token w_feud))
     = blocks w_feud).
Proof.
  split.
  - pose proof (C8_unblockUser env0 "00000000000000000000000b" alice_token
                  w_feud alice_payload 10%N 11%N eq_refl eq_refl eq_refl)
      as (H1 & H2 & _).
    split; [exact H1 | rewrite H2; vm_compute; reflexivity].
  - pose proof (C8_unblockUser env0 "00000000000000000000000c" alice_token
                  w_feud alice_payload 10%N 12%N eq_refl eq_refl eq_refl)
      as (H1 & _ & _ & H4 & _).
    split; [exact H1 |]. apply H4.
    intros e He [Ha Hb]. vm_compute in He.
    destruct He as [<- | [<- | [<- | []]]]; vm_compute in Ha, Hb; congruence.
Defined.

(** [C10] [deleteUser] leaves the cache as it is: with a live entry under
    the subject's key, a [getUser] after the resolved [deleteUser] still
    resolves to the cached snapshot, read from the cache alone. *)
Theorem C10_deleteUser_keeps_cache env now token w r w' p text :
  deleteUser env token w = (Resolved r, w') ->
  Jwt.verify token (secret env) = Some p ->
  cached now (cache_key (Jwt.id p)) w = Some text ->
  redis w' = redis w /\
  getUser env now token w'
  = (Resolved (Some (JSON.parse text)),
     record (RedisGet (cache_key (Jwt.id p))) w').
Proof.
  intros H Hv Hc.
  apply deleteUser_resolved in H as (p' & o & _ & _ & _ & ->).
  split; [reflexivity |].
  apply getUser_hit; [exact Hv |]. exact Hc.
Qed.

Lemma C10_deleteUser_keeps_cache_witness :
  redis (snd (deleteUser env0 alice_token w_alice_cached))
    = redis w_alice_cached /\
  getUser env0 (t_now + 60000) alice_token
    (snd (deleteUser env0 alice_token w_alice_cached))
  = (Resolved (Some (JSON.parse (JSON.Text alice))),
     record (RedisGet (cache_key (Jwt.id alice_payload)))
       (snd (deleteUser env0 alice_token w_alice_cached))).
Proof.
  apply (C10_deleteUser_keeps_cache env0 (t_now + 60000) alice_token
           w_alice_cached true).
  - vm_compute. reflexivity.
  - vm_compute. reflexivity.
  - vm_compute. reflexivity.
Defined.

(** The deleted user is gone from the collection, and is reported absent
    once the entry has expired. *)
Example deleted_alice_after_expiry :
  users (snd (deleteUser env0 alice_token w_alice_cached)) = [bob] /\
  fst (getUser env0 (t_now + 3600 * 1000) alice_token
         (snd (deleteUser env0 alice_token w_alice_cached)))
  = Resolved None.
Proof. vm_compute. split; reflexivity. Qed.

(** ** Tokens *)

Lemma createUser_resolved env now dto w u token w' :
  createUser env now dto w = (Resolved (u, token), w') ->
  u = User.mk (nextId w) (c_name dto) (c_surname dto) (c_username dto)
              (c_birthdate dto) /\
  token = Jwt.sign now (ObjectId.toHexString (User._id u)) (secret env) /\
  users w' = users w ++ [u].
Proof.
  unfold createUser, bind, User_new, User_save, ret. cbn.
  destruct (_ || _); [discriminate |].
  destruct (existsb _ _); [discriminate |].
  intros [= <- <- <-]. cbn. auto.
Qed.

(** [C9] A token issued for a subject verifies under the same secret and
    yields that subject; the token [createUser] returns is that token for
    the id of the saved user.  A token signed under another key, or a
    string that is no token, is rejected with [JsonWebTokenError], by
    [jwt.verify] and so by [getUser]. *)
Theorem C9_token_round_trip env now :
  (forall S w,
      jwt_verify (Jwt.sign now S (secret env)) (secret env) w
      = (Resolved {| Jwt.id := S; Jwt.iat := now / 1000 |}, w)) /\
  (forall dto w u token w',
      createUser env now dto w = (Resolved (u, token), w') ->
      token = Jwt.sign now (ObjectId.toHexString (User._id u)) (secret env) /\
      Jwt.id <$> Jwt.verify token (secret env)
      = Some (ObjectId.toHexString (User._id u))) /\
  (forall p key w,
      key <> secret env ->
      jwt_verify (Jwt.Signed p key) (secret env) w
      = (Rejected InvalidTokenError, w)) /\
  (forall raw w,
      jwt_verify (Jwt.Malformed raw) (secret env) w
      = (Rejected InvalidTokenError, w)) /\
  (forall token t w,
      Jwt.verify token (secret env) = None ->
      getUser env t token w = (Rejected InvalidTokenError, w)).
Proof.
  split; [| split; [| split; [| split]]].
  - intros S w. unfold jwt_verify, Jwt.sign, Jwt.verify.
    now rewrite String.eqb_refl.
  - intros dto w u token w' H.
    apply createUser_resolved in H as (_ & -> & _). split; [reflexivity |].
    unfold Jwt.sign, Jwt.verify. now rewrite String.eqb_refl.
  - intros p key w H. apply String.eqb_neq in H.
    unfold jwt_verify, Jwt.verify. now rewrite H.
  - reflexivity.
  - intros token t w H. unfold getUser, bind, jwt_verify. now rewrite H.
Qed.

Lemma C9_token_round_trip_witness :
  (Jwt.id <$> Jwt.verify alice_token (secret env0)
   = Some (ObjectId.toHexString (User._id alice))) /\
  jwt_verify (Jwt.sign t_now "00000000000000000000000a" "other_key")
    (secret env0) w_two
  = (Rejected InvalidTokenError, w_two) /\
  getUser env0 t_now (Jwt.sign t_now "00000000000000000000000a" "other_key") w_two
  = (Rejected InvalidTokenError, w_two).
Proof.
  pose proof (C9_token_round_trip env0 t_now) as (_ & Hc & Hk & _ & Hg).
  split; [| split].
  - apply (Hc alice_dto w0 alice alice_token
              (snd (createUser env0 t_now alice_dto w0))).
    vm_compute. reflexivity.
  - apply Hk. vm_compute. discriminate.
  - apply Hg. vm_compute. reflexivity.
Defined.

Lemma find_app_last {A} (f : A -> bool) l x :
  List.find f l = None -> f x = true -> List.find f (l ++ [x]) = Some x.
Proof.
  intros Hl Hx. induction l as [| y l IH]; cbn in *.
  - now rewrite Hx.
  - destruct (f y); [discriminate | now apply IH].
Qed.

(** With the token of [createUser], [getUser] resolves the subject back to
    the id of the saved user and finds that user: the id is fresh, printed
    into the token in lower-case hexadecimal and cast back from it. *)
Lemma createUser_then_getUser env now now' dto w u token w' :
  createUser env now dto w = (Resolved (u, token), w') ->
  (nextId w < 2 ^ 96)%N ->
  List.find (has_id (nextId w)) (users w) = None ->
  cached now' (cache_key (ObjectId.toHexString (nextId w))) w' = None ->
  fst (getUser env now' token w') = Resolved (Some u).
Proof.
  intros H Hb Hfresh Hc.
  apply createUser_resolved in H as (Hu & Ht & Hus).
  assert (Hid : User._id u = nextId w) by (rewrite Hu; reflexivity).
  assert (Hv : Jwt.verify token (secret env)
               = Some {| Jwt.id := ObjectId.toHexString (nextId w);
                         Jwt.iat := now / 1000 |}).
  { rewrite Ht, Hid. unfold Jwt.sign, Jwt.verify.
    now rewrite String.eqb_refl. }
  rewrite (getUser_miss_found env now' token w' _ (nextId w) u Hv Hc).
  - reflexivity.
  - apply cast_toHexString, Hb.
  - rewrite Hus. apply find_app_last; [exact Hfresh |].
    unfold has_id. rewrite Hid. apply N.eqb_refl.
Qed.

(** * Further properties *)

(** ** The Authorization header *)

Lemma split_space_no_space s : no_space s = true -> split_space s = [s].
Proof.
  induction s as [| c s IH]; cbn [split_space no_space]; [reflexivity |].
  intros H. apply andb_true_iff in H as [Hc Hs].
  apply negb_true_iff in Hc. rewrite Hc, (IH Hs). reflexivity.
Qed.

Lemma split_space_app a b :
  no_space a = true ->
  split_space (a ++ String " " b) = a :: split_space b.
Proof.
  induction a as [| c a IH]; intros H.
  - reflexivity.
  - change (String c a ++ String " " b)%string
      with (String c (a ++ String " " b))%string.
    cbn [split_space no_space] in *. apply andb_true_iff in H as [Hc Ha].
    apply negb_true_iff in Hc. rewrite Hc, (IH Ha). reflexivity.
Qed.

Lemma split_space_pieces s :
  List.Forall (fun piece => no_space piece = true) (split_space s).
Proof.
  induction s as [| c s IH]; cbn [split_space].
  - repeat constructor.
  - destruct (is_space c) eqn:Hc; [constructor; [reflexivity | exact IH] |].
    destruct (split_space s) as [| piece pieces].
    + repeat constructor. cbn [no_space]. now rewrite Hc.
    + inversion IH as [| ? ? Hp Hps]; subst. constructor; [| exact Hps].
      cbn [no_space]. now rewrite Hc, Hp.
Qed.

(** [X1] From a header made of one word, one space and a non-empty token
    without spaces, the token is extracted, whatever the first word is
    (it is not compared with "Bearer") and whatever follows the token after
    a further space. *)
Theorem X1_extractToken_second_word scheme token rest :
  no_space scheme = true ->
  no_space token = true ->
  token <> EmptyString ->
  extractTokenFromHeader (Some (scheme ++ String " " token)%string)
    = Some token /\
  extractTokenFromHeader
    (Some (scheme ++ String " " (token ++ String " " rest))%string)
    = Some token.
Proof.
  intros Hs Ht Hne. apply String.eqb_neq in Hne.
  unfold extractTokenFromHeader. split.
  - rewrite (split_space_app _ _ Hs), (split_space_no_space _ Ht).
    cbn. now rewrite Hne.
  - rewrite (split_space_app _ _ Hs), (split_space_app _ _ Ht).
    cbn. now rewrite Hne.
Qed.

Lemma X1_extractToken_witness :
  extractTokenFromHeader (Some "Bearer abc.def.ghi"%string)
    = Some "abc.def.ghi"%string /\
  extractTokenFromHeader (Some "Basic abc.def.ghi trailing words"%string)
    = Some "abc.def.ghi"%string.
Proof.
  split.
  - apply (proj1 (X1_extractToken_second_word "Bearer" "abc.def.ghi" ""
                    eq_refl eq_refl ltac:(discriminate))).
  - apply (proj2 (X1_extractToken_second_word "Basic" "abc.def.ghi"
                    "trailing words" eq_refl eq_refl ltac:(discriminate))).
Defined.

(** [X2] Whatever the header, an extracted token is not empty and has no
    space in it, and the header was present. *)
Theorem X2_extractToken_shape authHeader token :
  extractTokenFromHeader authHeader = Some token ->
  token <> EmptyString /\ no_space token = true /\ authHeader <> None.
Proof.
  unfold extractTokenFromHeader. destruct authHeader as [h |]; [| discriminate].
  pose proof (split_space_pieces h) as Hall.
  destruct (split_space h) as [| p0 [| p1 ps]]; cbn; try discriminate.
  destruct (String.eqb p1 "") eqn:He; [discriminate |].
  intros [= <-]. apply String.eqb_neq in He.
  inversion Hall as [| ? ? _ Hrest]; subst.
  inversion Hrest as [| ? ? Hp1 _]; subst.
  repeat split; [exact He | exact Hp1 | discriminate].
Qed.

Lemma X2_extractToken_shape_witness :
  "tok"%string <> EmptyString /\ no_space "tok" = true /\
  Some "Bearer tok more"%string <> None.
Proof.
  apply (X2_extractToken_shape (Some "Bearer tok more"%string) "tok").
  vm_compute. reflexivity.
Defined.

(** [X3] No token is extracted from a missing header, from a header
    without a space, or from one whose first space is followed by another
    space or by nothing. *)
Theorem X3_extractToken_none :
  extractTokenFromHeader None = None /\
  (forall h, no_space h = true -> extractTokenFromHeader (Some h) = None) /\
  (forall scheme rest,
      no_space scheme = true ->
      extractTokenFromHeader
        (Some (scheme ++ String " " (String " " rest))%string)
      = None) /\
  (forall scheme,
      no_space scheme = true ->
      extractTokenFromHeader (Some (scheme ++ String " " EmptyString)%string)
      = None).
Proof.
  split; [reflexivity |]. split; [| split].
  - intros h Hh. unfold extractTokenFromHeader.
    now rewrite (split_space_no_space _ Hh).
  - intros scheme rest Hs. unfold extractTokenFromHeader.
    rewrite (split_space_app _ _ Hs). cbn. reflexivity.
  - intros scheme Hs. unfold extractTokenFromHeader.
    rewrite (split_space_app _ _ Hs). reflexivity.
Qed.

Lemma X3_extractToken_none_witness :
  extractTokenFromHeader (Some "Bearer"%string) = None /\
  extractTokenFromHeader (Some "Bearer  abc"%string) = None /\
  extractTokenFromHeader (Some "Bearer "%string) = None.
Proof.
  pose proof X3_extractToken_none as (_ & H1 & H2 & H3).
  split; [| split].
  - apply (H1 "Bearer"%string). reflexivity.
  - apply (H2 "Bearer"%string "abc"%string). reflexivity.
  - apply (H3 "Bearer"%string). reflexivity.
Defined.

Lemma extract_second_word scheme token :
  no_space scheme = true -> no_space token = true -> token <> EmptyString ->
  extractTokenFromHeader (Some (scheme ++ String " " token)%string) = Some token.
Proof.
  intros Hs Ht Hne. apply String.eqb_neq in Hne. unfold extractTokenFromHeader.
  rewrite (split_space_app _ _ Hs), (split_space_no_space _ Ht).
  cbn. now rewrite Hne.
Qed.

Lemma extract_no_space h :
  no_space h = true -> extractTokenFromHeader (Some h) = None.
Proof.
  intros Hh. unfold extractTokenFromHeader.
  now rewrite (split_space_no_space _ Hh).
Qed.

(** [X4] Without a header, or with a header that has no space in it, each
    of the six routes that need a token throws [BadRequestException] and
    calls no service method. *)
Theorem X4_routes_reject_without_token
    RegExp token_of env now authHeader id username minAge maxAge dto :
  authHeader = None \/ (exists h, authHeader = Some h /\ no_space h = true) ->
  let bad {A} : Handled A :=
    BadRequestException "Missing or invalid Authorization header" in
  UsersController.getUser token_of env now authHeader = bad /\
  UsersController.deleteUser token_of env authHeader = bad /\
  UsersController.blockUser token_of env authHeader id = bad /\
  UsersController.searchUser RegExp token_of env now authHeader username
    minAge maxAge = bad /\
  UsersController.unblockUser token_of env authHeader id = bad /\
  UsersController.updateUser token_of env now authHeader dto = bad.
Proof.
  intros H bad.
  assert (E : extractTokenFromHeader authHeader = None).
  { destruct H as [-> | (h & -> & Hh)]; [reflexivity |].
    now apply extract_no_space. }
  unfold UsersController.getUser, UsersController.deleteUser,
    UsersController.blockUser, UsersController.searchUser,
    UsersController.unblockUser, UsersController.updateUser.
  rewrite E. repeat split; reflexivity.
Qed.

Lemma X4_routes_reject_without_token_witness :
  UsersController.getUser (fun _ => alice_token) env0 t_now (Some "Bearer"%string)
    = BadRequestException "Missing or invalid Authorization header" /\
  UsersController.deleteUser (fun _ => alice_token) env0 None
    = BadRequestException "Missing or invalid Authorization header".
Proof.
  split.
  - apply (X4_routes_reject_without_token literal_RegExp (fun _ => alice_token)
             env0 t_now (Some "Bearer"%string) ""%string ""%string None None
             rename_alice).
    right. exists "Bearer"%string. split; reflexivity.
  - apply (X4_routes_reject_without_token literal_RegExp (fun _ => alice_token)
             env0 t_now None ""%string ""%string None None rename_alice).
    left. reflexivity.
Defined.

(** [X5] With a header of one word, a space and a non-empty token without
    spaces, each of the six routes returns the promise of its service
    method, called with the token that the second word denotes and with
    the route's other arguments unchanged. *)
Theorem X5_routes_forward_the_token
    RegExp token_of env now scheme token id username minAge maxAge dto :
  no_space scheme = true -> no_space token = true -> token <> EmptyString ->
  let authHeader := Some (scheme ++ String " " token)%string in
  UsersController.getUser token_of env now authHeader
    = Returns (getUser env now (token_of token)) /\
  UsersController.deleteUser token_of env authHeader
    = Returns (deleteUser env (token_of token)) /\
  UsersController.blockUser token_of env authHeader id
    = Returns (blockUser env id (token_of token)) /\
  UsersController.searchUser RegExp token_of env now authHeader username
    minAge maxAge
    = Returns (searchUsers RegExp env now username (token_of token)
                 minAge maxAge) /\
  UsersController.unblockUser token_of env authHeader id
    = Returns (unblockUser env id (token_of token)) /\
  UsersController.updateUser token_of env now authHeader dto
    = Returns (updateUser env now (token_of token) dto).
Proof.
  intros Hs Ht Hne authHeader.
  pose proof (extract_second_word _ _ Hs Ht Hne) as E.
  unfold UsersController.getUser, UsersController.deleteUser,
    UsersController.blockUser, UsersController.searchUser,
    UsersController.unblockUser, UsersController.updateUser.
  subst authHeader. rewrite E. repeat split; reflexivity.
Qed.

Lemma X5_routes_forward_the_token_witness :
  UsersController.getUser (fun _ => alice_token) env0 t_now
    (Some "Bearer abc"%string)
  = Returns (getUser env0 t_now alice_token).
Proof.
  apply (X5_routes_forward_the_token literal_RegExp (fun _ => alice_token)
           env0 t_now "Bearer"%string "abc"%string ""%string ""%string
           None None rename_alice eq_refl eq_refl ltac:(discriminate)).
Defined.

(** ** Tokens that do not verify *)

(** [X6] With a token that does not verify under the configured secret,
    every service method that takes a token rejects with
    [JsonWebTokenError] before calling the collections or the cache: the
    world, its log included, is the one it started from. *)
Theorem X6_unverified_token_rejected
    RegExp env now token id username minAge maxAge dto w :
  Jwt.verify token (secret env) = None ->
  getUser env now token w = (Rejected JsonWebTokenError, w) /\
  deleteUser env token w = (Rejected JsonWebTokenError, w) /\
  blockUser env id token w = (Rejected JsonWebTokenError, w) /\
  searchUsers RegExp env now username token minAge maxAge w
    = (Rejected JsonWebTokenError, w) /\
  unblockUser env id token w = (Rejected JsonWebTokenError, w) /\
  updateUser env now token dto w = (Rejected JsonWebTokenError, w).
Proof.
  intros H.
  unfold getUser, deleteUser, blockUser, searchUsers, searchUsers_at,
    unblockUser, updateUser, bind, jwt_verify.
  rewrite H. repeat split; reflexivity.
Qed.

Lemma X6_unverified_token_rejected_witness :
  blockUser env0 "00000000000000000000000b"
    (Jwt.sign t_now "00000000000000000000000a" "guessed") w_two
  = (Rejected JsonWebTokenError, w_two) /\
  deleteUser env0 (Jwt.Malformed "not.a.token") w_two
  = (Rejected JsonWebTokenError, w_two).
Proof.
  split.
  - apply (X6_unverified_token_rejected literal_RegExp env0 t_now
             (Jwt.sign t_now "00000000000000000000000a" "guessed")
             "00000000000000000000000b" ""%string None None rename_alice w_two).
    reflexivity.
  - apply (X6_unverified_token_rejected literal_RegExp env0 t_now
             (Jwt.Malformed "not.a.token") ""%string ""%string None None
             rename_alice w_two).
    reflexivity.
Defined.

(** ** More on blocking *)

Lemma find_has_id_eq o l u : List.find (has_id o) l = Some u -> User._id u = o.
Proof. intros H. apply find_has_id in H. now apply ObjectId_eqb_eq in H. Qed.

Lemma find_app_none {A} (f : A -> bool) l x :
  List.find f l = None -> List.find f (l ++ [x]) = List.find f [x].
Proof.
  intros Hl. induction l as [| y l IH]; cbn in *; [reflexivity |].
  destruct (f y); [discriminate | now apply IH].
Qed.

Lemma blockUser_not_found_eq env target token w p a b :
  Jwt.verify token (secret env) = Some p ->
  ObjectId.cast (Jwt.id p) = Some a ->
  ObjectId.cast target = Some b ->
  List.find (has_id b) (users w) = None ->
  blockUser env target token w = (Rejected NotFoundError, looked_up a b w).
Proof. intros Hv Ha Hb Hu. block_prelude Hv Ha Hb. now rewrite Hu. Qed.

Lemma blockUser_same_string_eq env token w p a u :
  Jwt.verify token (secret env) = Some p ->
  ObjectId.cast (Jwt.id p) = Some a ->
  List.find (has_id a) (users w) = Some u ->
  blockUser env (Jwt.id p) token w
  = (Rejected InvalidOperationError, looked_up a a w).
Proof.
  intros Hv Ha Hu. block_prelude Hv Ha Ha. rewrite Hu.
  now rewrite String.eqb_refl.
Qed.

Lemma blockUser_conflict_eq env target token w p a b ua ub e :
  Jwt.verify token (secret env) = Some p ->
  ObjectId.cast (Jwt.id p) = Some a ->
  ObjectId.cast target = Some b ->
  List.find (has_id a) (users w) = Some ua ->
  List.find (has_id b) (users w) = Some ub ->
  String.eqb target (Jwt.id p) = false ->
  List.find (block_matches [BUserId a; BBlockedUserId b]) (blocks w) = Some e ->
  blockUser env target token w
  = (Rejected ConflictError, record BlockFindOne (looked_up a b w)).
Proof.
  intros Hv Ha Hb Hua Hub Hne He. block_prelude Hv Ha Hb.
  rewrite Hub, Hne, Hua. unfold bind at 1, Block_findOne at 1.
  cbn [blocks record].
  rewrite (find_has_id_eq _ _ _ Hua), (find_has_id_eq _ _ _ Hub), He.
  reflexivity.
Qed.

Lemma blockUser_success_eq env target token w p a b ua ub :
  Jwt.verify token (secret env) = Some p ->
  ObjectId.cast (Jwt.id p) = Some a ->
  ObjectId.cast target = Some b ->
  List.find (has_id a) (users w) = Some ua ->
  List.find (has_id b) (users w) = Some ub ->
  String.eqb target (Jwt.id p) = false ->
  List.find (block_matches [BUserId a; BBlockedUserId b]) (blocks w) = None ->
  blockUser env target token w
  = (Resolved ub,
     record BlockSave
       (set_blocks (blocks w ++ [Block.mk (nextId w) a b])
          (set_nextId (nextId w + 1)%N
             (record BlockFindOne (looked_up a b w))))).
Proof.
  intros Hv Ha Hb Hua Hub Hne He. block_prelude Hv Ha Hb.
  rewrite Hub, Hne, Hua. unfold bind at 1, Block_findOne at 1.
  cbn [blocks record].
  rewrite (find_has_id_eq _ _ _ Hua), (find_has_id_eq _ _ _ Hub), He.
  reflexivity.
Qed.

Lemma blockUser_actor_gone_eq env target token w p a b ub :
  Jwt.verify token (secret env) = Some p ->
  ObjectId.cast (Jwt.id p) = Some a ->
  ObjectId.cast target = Some b ->
  List.find (has_id a) (users w) = None ->
  List.find (has_id b) (users w) = Some ub ->
  String.eqb target (Jwt.id p) = false ->
  blockUser env target token w = (Rejected TypeError, looked_up a b w).
Proof.
  intros Hv Ha Hb Hua Hub Hne. block_prelude Hv Ha Hb.
  now rewrite Hub, Hne, Hua.
Qed.

(** [X7] A target id that belongs to no user: [blockUser] rejects with
    "User not found" and users, blocks and cache stay as they are. *)
Theorem X7_blockUser_unknown_target env target token w p a b :
  Jwt.verify token (secret env) = Some p ->
  ObjectId.cast (Jwt.id p) = Some a ->
  ObjectId.cast target = Some b ->
  List.find (has_id b) (users w) = None ->
  fst (blockUser env target token w) = Rejected (Error "User not found") /\
  same_data w (snd (blockUser env target token w)).
Proof.
  intros Hv Ha Hb Hu.
  rewrite (blockUser_not_found_eq _ _ _ _ _ _ _ Hv Ha Hb Hu).
  repeat split; reflexivity.
Qed.

Lemma X7_blockUser_unknown_target_witness :
  fst (blockUser env0 "00000000000000000000000c" alice_token w_two)
    = Rejected (Error "User not found") /\
  same_data w_two (snd (blockUser env0 "00000000000000000000000c" alice_token w_two)).
Proof.
  apply (X7_blockUser_unknown_target env0 "00000000000000000000000c"
           alice_token w_two alice_payload 10%N 12%N);
    vm_compute; reflexivity.
Defined.

(** [X8] The target written exactly as the subject of the token, for a
    user who exists: [blockUser] rejects with "You cannot block yourself"
    and nothing is stored. *)
Theorem X8_blockUser_own_id env token w p a u :
  Jwt.verify token (secret env) = Some p ->
  ObjectId.cast (Jwt.id p) = Some a ->
  List.find (has_id a) (users w) = Some u ->
  fst (blockUser env (Jwt.id p) token w)
    = Rejected (Error "You cannot block yourself") /\
  same_data w (snd (blockUser env (Jwt.id p) token w)).
Proof.
  intros Hv Ha Hu.
  rewrite (blockUser_same_string_eq _ _ _ _ _ _ Hv Ha Hu).
  repeat split; reflexivity.
Qed.

Lemma X8_blockUser_own_id_witness :
  fst (blockUser env0 "00000000000000000000000a" alice_token w_two)
    = Rejected (Error "You cannot block yourself") /\
  same_data w_two (snd (blockUser env0 "00000000000000000000000a" alice_token w_two)).
Proof.
  apply (X8_blockUser_own_id env0 alice_token w_two alice_payload 10%N alice);
    vm_compute; reflexivity.
Defined.

(** [X9] When a block document for the pair (actor, target) is already
    there, [blockUser] rejects with "User already blocked" and stores
    nothing. *)
Theorem X9_blockUser_already_blocked env target token w p a b ua ub e :
  Jwt.verify token (secret env) = Some p ->
  ObjectId.cast (Jwt.id p) = Some a ->
  ObjectId.cast target = Some b ->
  List.find (has_id a) (users w) = Some ua ->
  List.find (has_id b) (users w) = Some ub ->
  String.eqb target (Jwt.id p) = false ->
  In e (blocks w) -> Block.userId e = a -> Block.blockedUserId e = b ->
  fst (blockUser env target token w) = Rejected (Error "User already blocked") /\
  same_data w (snd (blockUser env target token w)).
Proof.
  intros Hv Ha Hb Hua Hub Hne He Hea Heb.
  destruct (List.find (block_matches [BUserId a; BBlockedUserId b]) (blocks w))
    as [e' |] eqn:Hf.
  - rewrite (blockUser_conflict_eq _ _ _ _ _ _ _ _ _ _ Hv Ha Hb Hua Hub Hne Hf).
    repeat split; reflexivity.
  - exfalso. apply (find_none _ _ Hf) in He.
    rewrite block_matches_pair, Hea, Heb in He.
    unfold ObjectId.eqb in He. rewrite !N.eqb_refl in He. discriminate.
Qed.

Lemma X9_blockUser_already_blocked_witness :
  fst (blockUser env0 "00000000000000000000000b" alice_token w_blocked)
    = Rejected (Error "User already blocked") /\
  same_data w_blocked
    (snd (blockUser env0 "00000000000000000000000b" alice_token w_blocked)).
Proof.
  apply (X9_blockUser_already_blocked env0 "00000000000000000000000b"
           alice_token w_blocked alice_payload 10%N 11%N alice bob
           (Block.mk 12%N 10%N 11%N));
    try (vm_compute; reflexivity).
  left. reflexivity.
Defined.

(** [X10] A token whose subject is no longer a user (the account was
    deleted, the token still verifies): blocking an existing other user
    rejects with the [TypeError] of reading [user._id], not with one of
    the method's own errors, and stores nothing. *)
Theorem X10_blockUser_actor_deleted env target token w p a b ub :
  Jwt.verify token (secret env) = Some p ->
  ObjectId.cast (Jwt.id p) = Some a ->
  ObjectId.cast target = Some b ->
  List.find (has_id a) (users w) = None ->
  List.find (has_id b) (users w) = Some ub ->
  String.eqb target (Jwt.id p) = false ->
  fst (blockUser env target token w) = Rejected TypeError /\
  same_data w (snd (blockUser env target token w)).
Proof.
  intros Hv Ha Hb Hua Hub Hne.
  rewrite (blockUser_actor_gone_eq _ _ _ _ _ _ _ _ Hv Ha Hb Hua Hub Hne).
  repeat split; reflexivity.
Qed.

Lemma X10_blockUser_actor_deleted_witness :
  fst (blockUser env0 "00000000000000000000000b" carol_token w_two)
    = Rejected TypeError /\
  same_data w_two
    (snd (blockUser env0 "00000000000000000000000b" carol_token w_two)).
Proof.
  apply (X10_blockUser_actor_deleted env0 "00000000000000000000000b"
           carol_token w_two
           {| Jwt.id := "00000000000000000000000c"; Jwt.iat := 1793707200 |}
           12%N 11%N bob);
    vm_compute; reflexivity.
Defined.

Lemma unblockUser_eq env target token w p a b :
  Jwt.verify token (secret env) = Some p ->
  ObjectId.cast (Jwt.id p) = Some a ->
  ObjectId.cast target = Some b ->
  unblockUser env target token w
  = (Resolved true,
     record BlockDeleteMany
       (set_blocks
          (List.filter
             (fun e => negb (ObjectId.eqb (Block.userId e) a
                             && ObjectId.eqb (Block.blockedUserId e) b))
             (blocks w)) w)).
Proof.
  intros Hv Ha Hb. unfold unblockUser.
  rewrite (bind_step _ _ _ _ _ (jwt_verify_ok _ _ _ _ Hv)).
  unfold newObjectId. rewrite Ha, Hb.
  unfold bind, ret, Block_deleteMany. cbn. do 3 f_equal.
  apply filter_ext. intros e. now rewrite andb_true_r.
Qed.

Lemma pair_find_none a b l :
  List.find (block_matches [BUserId a; BBlockedUserId b]) l = None ->
  forall e, In e l ->
    negb (ObjectId.eqb (Block.userId e) a
          && ObjectId.eqb (Block.blockedUserId e) b) = true.
Proof.
  intros Hf e He. apply (find_none _ _ Hf) in He.
  rewrite block_matches_pair in He. now rewrite He.
Qed.

(** [X11] An existing actor, an existing target written differently from
    the token's subject, and no block document for the pair yet:
    [blockUser] resolves to the target's record and appends exactly one
    block document, from the actor's [_id] to the target's; users and
    cache stay as they are. *)
Theorem X11_blockUser_stores_the_edge env target token w p a b ua ub :
  Jwt.verify token (secret env) = Some p ->
  ObjectId.cast (Jwt.id p) = Some a ->
  ObjectId.cast target = Some b ->
  List.find (has_id a) (users w) = Some ua ->
  List.find (has_id b) (users w) = Some ub ->
  String.eqb target (Jwt.id p) = false ->
  List.find (block_matches [BUserId a; BBlockedUserId b]) (blocks w) = None ->
  let w' := snd (blockUser env target token w) in
  fst (blockUser env target token w) = Resolved ub /\
  blocks w' = blocks w ++ [Block.mk (nextId w) a b] /\
  users w' = users w /\ redis w' = redis w.
Proof.
  intros Hv Ha Hb Hua Hub Hne He w'. subst w'.
  rewrite (blockUser_success_eq _ _ _ _ _ _ _ _ _ Hv Ha Hb Hua Hub Hne He).
  repeat split; reflexivity.
Qed.

Lemma X11_blockUser_stores_the_edge_witness :
  fst (blockUser env0 "00000000000000000000000b" alice_token w_two)
    = Resolved bob /\
  blocks (snd (blockUser env0 "00000000000000000000000b" alice_token w_two))
    = blocks w_two ++ [Block.mk (nextId w_two) 10%N 11%N] /\
  users (snd (blockUser env0 "00000000000000000000000b" alice_token w_two))
    = users w_two /\
  redis (snd (blockUser env0 "00000000000000000000000b" alice_token w_two))
    = redis w_two.
Proof.
  apply (X11_blockUser_stores_the_edge env0 "00000000000000000000000b"
           alice_token w_two alice_payload 10%N 11%N alice bob);
    vm_compute; reflexivity.
Defined.

(** [X12] Blocking the same target a second time, right after a first
    [blockUser] that stored the edge, rejects with "User already blocked"
    and the block collection keeps the single document. *)
Theorem X12_blockUser_twice env target token w p a b ua ub :
  Jwt.verify token (secret env) = Some p ->
  ObjectId.cast (Jwt.id p) = Some a ->
  ObjectId.cast target = Some b ->
  List.find (has_id a) (users w) = Some ua ->
  List.find (has_id b) (users w) = Some ub ->
  String.eqb target (Jwt.id p) = false ->
  List.find (block_matches [BUserId a; BBlockedUserId b]) (blocks w) = None ->
  let w1 := snd (blockUser env target token w) in
  fst (blockUser env target token w1) = Rejected (Error "User already blocked") /\
  blocks (snd (blockUser env target token w1))
  = blocks w ++ [Block.mk (nextId w) a b].
Proof.
  intros Hv Ha Hb Hua Hub Hne He w1. subst w1.
  rewrite (blockUser_success_eq _ _ _ _ _ _ _ _ _ Hv Ha Hb Hua Hub Hne He).
  cbn [snd].
  erewrite blockUser_conflict_eq; try eassumption.
  - split; reflexivity.
  - cbn [blocks record set_blocks]. apply find_app_last; [exact He |].
    rewrite block_matches_pair. cbn. unfold ObjectId.eqb.
    now rewrite !N.eqb_refl.
Qed.

Lemma X12_blockUser_twice_witness :
  fst (blockUser env0 "00000000000000000000000b" alice_token
         (snd (blockUser env0 "00000000000000000000000b" alice_token w_two)))
    = Rejected (Error "User already blocked") /\
  blocks (snd (blockUser env0 "00000000000000000000000b" alice_token
                 (snd (blockUser env0 "00000000000000000000000b" alice_token
                         w_two))))
    = blocks w_two ++ [Block.mk (nextId w_two) 10%N 11%N].
Proof.
  apply (X12_blockUser_twice env0 "00000000000000000000000b"
           alice_token w_two alice_payload 10%N 11%N alice bob);
    vm_compute; reflexivity.
Defined.

(** [X13] [unblockUser] right after a [blockUser] that stored the edge
    brings the block collection back to what it was before the two
    calls. *)
Theorem X13_block_then_unblock env target token w p a b ua ub :
  Jwt.verify token (secret env) = Some p ->
  ObjectId.cast (Jwt.id p) = Some a ->
  ObjectId.cast target = Some b ->
  List.find (has_id a) (users w) = Some ua ->
  List.find (has_id b) (users w) = Some ub ->
  String.eqb target (Jwt.id p) = false ->
  List.find (block_matches [BUserId a; BBlockedUserId b]) (blocks w) = None ->
  let w1 := snd (blockUser env target token w) in
  fst (unblockUser env target token w1) = Resolved true /\
  blocks (snd (unblockUser env target token w1)) = blocks w.
Proof.
  intros Hv Ha Hb Hua Hub Hne He w1. subst w1.
  rewrite (blockUser_success_eq _ _ _ _ _ _ _ _ _ Hv Ha Hb Hua Hub Hne He).
  cbn [snd]. rewrite (unblockUser_eq _ _ _ _ _ _ _ Hv Ha Hb).
  split; [reflexivity |].
  cbn [snd blocks record set_blocks]. rewrite List.filter_app. cbn.
  unfold ObjectId.eqb at 3 4. rewrite !N.eqb_refl. cbn.
  rewrite app_nil_r. apply forallb_filter_id, forallb_forall.
  now apply pair_find_none.
Qed.

Lemma X13_block_then_unblock_witness :
  fst (unblockUser env0 "00000000000000000000000b" alice_token
         (snd (blockUser env0 "00000000000000000000000b" alice_token w_two)))
    = Resolved true /\
  blocks (snd (unblockUser env0 "00000000000000000000000b" alice_token
                 (snd (blockUser env0 "00000000000000000000000b" alice_token
                         w_two))))
    = blocks w_two.
Proof.
  apply (X13_block_then_unblock env0 "00000000000000000000000b"
           alice_token w_two alice_payload 10%N 11%N alice bob);
    vm_compute; reflexivity.
Defined.

(** Every run of [blockUser]: users and cache are left alone, and the
    block collection is either left alone or extended by one document for
    a pair that had none. *)
Lemma blockUser_effect env target token w :
  let w' := snd (blockUser env target token w) in
  users w' = users w /\ redis w' = redis w /\
  (nextId w <= nextId w')%N /\
  (blocks w' = blocks w \/
   exists a b,
     blocks w' = blocks w ++ [Block.mk (nextId w) a b] /\
     forall e, In e (blocks w) -> edge e <> (a, b)).
Proof.
  unfold blockUser, bind, jwt_verify, User_findById, castId, throw, ret.
  destruct (Jwt.verify token (secret env)) as [p |];
    [| cbn; repeat split; auto; lia].
  destruct (ObjectId.cast (Jwt.id p)) as [a |];
    [| cbn; repeat split; auto; lia].
  destruct (ObjectId.cast target) as [b |]; [| cbn; repeat split; auto; lia].
  cbn [users record].
  destruct (List.find (has_id b) (users w)) as [ub |] eqn:Hub;
    [| cbn; repeat split; auto; lia].
  destruct (String.eqb target (Jwt.id p)); [cbn; repeat split; auto; lia |].
  destruct (List.find (has_id a) (users w)) as [ua |] eqn:Hua;
    [| cbn; repeat split; auto; lia].
  unfold Block_findOne. cbn [blocks record].
  rewrite (find_has_id_eq _ _ _ Hua), (find_has_id_eq _ _ _ Hub).
  destruct (List.find _ (blocks w)) as [e |] eqn:He;
    [cbn; repeat split; auto; lia |].
  cbn. repeat split; auto; [lia |]. right. exists a, b. split; [reflexivity |].
  intros e Hin. apply (pair_find_none _ _ _ He) in Hin.
  apply negb_true_iff, andb_false_iff in Hin. unfold edge. intros [= E1 E2].
  rewrite <- (ObjectId_eqb_eq _ a) in E1. rewrite <- (ObjectId_eqb_eq _ b) in E2.
  destruct Hin; congruence.
Qed.

Lemma NoDup_snoc {A} (l : list A) x :
  List.NoDup l -> ~ In x l -> List.NoDup (l ++ [x]).
Proof.
  induction l as [| y l IH]; intros Hnd Hx.
  - cbn. constructor; [exact Hx | constructor].
  - inversion Hnd as [| ? ? Hy Hl]; subst.
    change ((y :: l) ++ [x]) with (y :: (l ++ [x])). constructor.
    + rewrite in_app_iff. intros [H | [H | []]]; [now apply Hy |].
      subst. apply Hx. now left.
    + apply IH; [exact Hl |]. intros H. apply Hx. now right.
Qed.



(** ** More on the cache *)

(** [X15] Whatever its arguments and its outcome, [getUser] changes
    neither collection, and in the cache it changes at most the entry
    under the key of the token's subject. *)
Theorem X15_getUser_frame env now token w :
  let w' := snd (getUser env now token w) in
  users w' = users w /\ blocks w' = blocks w /\
  forall key,
    (forall p, Jwt.verify token (secret env) = Some p ->
               key <> cache_key (Jwt.id p)) ->
    redis w' !! key = redis w !! key.
Proof.
  unfold getUser, bind, jwt_verify, redis_get, User_findById, castId, redis_set,
    throw, ret.
  destruct (Jwt.verify token (secret env)) as [p |]; [| now cbn].
  destruct (redis w !! cache_key (Jwt.id p)) as [e |];
    [destruct (now <? expiresAt e); [now cbn |] |].
  all: destruct (ObjectId.cast (Jwt.id p)) as [o |]; [| now cbn].
  all: cbn [users record];
    destruct (List.find (has_id o) (users w)) as [u |]; [| now cbn].
  all: cbn; repeat split; intros key Hk;
    apply lookup_insert_ne; intros E; now apply (Hk p eq_refl).
Qed.

Lemma X15_getUser_frame_witness :
  users (snd (getUser env0 t_now alice_token w_two)) = users w_two /\
  blocks (snd (getUser env0 t_now alice_token w_two)) = blocks w_two /\
  redis (snd (getUser env0 t_now alice_token w_two))
    !! "user:00000000000000000000000b"%string
  = redis w_two !! "user:00000000000000000000000b"%string.
Proof.
  pose proof (X15_getUser_frame env0 t_now alice_token w_two) as (H1 & H2 & H3).
  split; [exact H1 |]. split; [exact H2 |].
  apply H3. intros p Hp. vm_compute in Hp. injection Hp as <-.
  vm_compute. discriminate.
Defined.




Example alice_cached_then_deleted_out_of_band :
  fst (getUser env0 (t_now + 1000) alice_token (set_users [bob] w_alice_cached))
    = Resolved (Some alice) /\
  fst (getUser env0 (t_now + 3600 * 1000) alice_token
         (set_users [bob] w_alice_cached))
    = Resolved None.
Proof. vm_compute. split; reflexivity. Qed.

(** ** More on search *)

Lemma searchUsers_at_frame
    RegExp env now1 now2 username token minAge maxAge w :
  same_data w
    (snd (searchUsers_at RegExp env now1 now2 username token minAge maxAge w)) /\
  nextId (snd (searchUsers_at RegExp env now1 now2 username token
                 minAge maxAge w))
  = nextId w.
Proof.
  unfold searchUsers_at, bind, jwt_verify, Block_find, newObjectId,
    newRegExp, User_find, throw, ret, same_data.
  destruct (Jwt.verify token (secret env)) as [p |]; [| now cbn].
  cbn [record users blocks redis nextId].
  destruct (ObjectId.cast (Jwt.id p)) as [o |]; [| now cbn].
  destruct (RegExp username "i"%string) as [re |]; [| now cbn].
  destruct (filter_castable _); now cbn.
Qed.

Lemma searchUsers_frame RegExp env now username token minAge maxAge w :
  same_data w (snd (searchUsers RegExp env now username token minAge maxAge w)).
Proof. apply searchUsers_at_frame. Qed.

Lemma searchUsers_at_syntax_error
    RegExp env now1 now2 username token minAge maxAge w p o :
  Jwt.verify token (secret env) = Some p ->
  ObjectId.cast (Jwt.id p) = Some o ->
  RegExp username "i"%string = None ->
  fst (searchUsers_at RegExp env now1 now2 username token minAge maxAge w)
  = Rejected SyntaxError.
Proof.
  intros Hv Hc Hre. unfold searchUsers_at.
  rewrite (bind_step _ _ _ _ _ (jwt_verify_ok _ _ _ _ Hv)).
  unfold bind at 1. unfold Block_find at 1. cbv beta iota.
  unfold newObjectId. rewrite Hc.
  unfold bind at 1. unfold ret at 1. cbv beta iota.
  unfold newRegExp. rewrite Hre. reflexivity.
Qed.

(** [X17] Whatever its arguments and its outcome, [searchUsers] changes
    neither the collections nor the cache; and when it resolves, every
    user it returns is a document of the user collection other than the
    actor's own. *)
Theorem X17_searchUsers_reads_only
    RegExp env now username token minAge maxAge w :
  same_data w (snd (searchUsers RegExp env now username token minAge maxAge w)) /\
  forall l p o,
    fst (searchUsers RegExp env now username token minAge maxAge w) = Resolved l ->
    Jwt.verify token (secret env) = Some p ->
    ObjectId.cast (Jwt.id p) = Some o ->
    forall u, In u l -> In u (users w) /\ User._id u <> o.
Proof.
  split; [apply searchUsers_frame |].
  intros l p o Hl Hv Ho u Hu. unfold searchUsers in Hl.
  destruct (RegExp username "i"%string) as [re |] eqn:Hre.
  - rewrite (searchUsers_at_outcome _ _ _ _ _ _ _ _ _ _ _ _ Hv Ho Hre) in Hl.
    destruct (filter_castable _); [| discriminate Hl].
    injection Hl as <-.
    apply filter_In in Hu as [Hin Hf]. split; [exact Hin |].
    apply andb_true_iff in Hf as [Hf _].
    apply negb_true_iff in Hf. intros Eq. apply ObjectId_eqb_eq in Eq.
    congruence.
  - rewrite (searchUsers_at_syntax_error _ _ _ _ _ _ _ _ _ _ _ Hv Ho Hre) in Hl.
    discriminate Hl.
Qed.

Lemma X17_searchUsers_reads_only_witness :
  In bob (users w_two) /\ User._id bob <> 10%N.
Proof.
  apply (proj2 (X17_searchUsers_reads_only literal_RegExp env0 t_now "bob"
                  alice_token None None w_two) [bob] alice_payload 10%N);
    try (vm_compute; reflexivity).
  left. reflexivity.
Defined.

(** [X18] What a search comes to, for a verified token whose subject is
    an id, a pattern the engine accepts and any two clock readings.  When
    no bound of the age condition is an Invalid Date it resolves to the
    users, in collection order, other than the actor, whose username
    matches the pattern or whose birthdate satisfies the age condition;
    the block collection excludes nobody.  When a bound is an Invalid Date
    (an age that takes the year out of the range of [Date]) it rejects
    with [CastError]. *)
Theorem X18_searchUsers_result
    RegExp env now1 now2 username token minAge maxAge w p o re :
  Jwt.verify token (secret env) = Some p ->
  ObjectId.cast (Jwt.id p) = Some o ->
  RegExp username "i"%string = Some re ->
  let age := ageCondition_at (tza env) now1 now2 minAge maxAge in
  let found :=
    fst (searchUsers_at RegExp env now1 now2 username token minAge maxAge w) in
  (filter_castable age = true ->
   found
   = Resolved
       (List.filter
          (fun u =>
             negb (ObjectId.eqb (User._id u) o)
             && (re (User.username u) || user_matches age u))
          (users w))) /\
  (filter_castable age = false -> found = Rejected CastError).
Proof.
  intros Hv Ho Hre age found. subst age found.
  rewrite (searchUsers_at_outcome _ _ _ _ _ _ _ _ _ _ _ _ Hv Ho Hre).
  split; intros ->; reflexivity.
Qed.

Lemma X18_searchUsers_result_witness :
  fst (searchUsers_at literal_RegExp env0 t_now (t_now + 1) "ali" bob_token
         (Some 30) (Some 200) w_blocked)
    = Resolved
        (List.filter
           (fun u =>
              negb (ObjectId.eqb (User._id u) 11%N)
              && (includes_ci "ali" (User.username u)
                  || user_matches
                       (ageCondition_at (tza env0) t_now (t_now + 1)
                          (Some 30) (Some 200)) u))
           (users w_blocked)) /\
  fst (searchUsers_at literal_RegExp env0 t_now (t_now + 1) "ali" bob_token
         (Some 300000) None w_blocked)
    = Rejected CastError.
Proof.
  split.
  - apply (proj1 (X18_searchUsers_result literal_RegExp env0 t_now (t_now + 1)
                    "ali" bob_token (Some 30) (Some 200) w_blocked
                    {| Jwt.id := "00000000000000000000000b";
                       Jwt.iat := 1793707200 |}
                    11%N (includes_ci "ali") eq_refl eq_refl eq_refl)).
    vm_compute. reflexivity.
  - apply (proj2 (X18_searchUsers_result literal_RegExp env0 t_now (t_now + 1)
                    "ali" bob_token (Some 300000) None w_blocked
                    {| Jwt.id := "00000000000000000000000b";
                       Jwt.iat := 1793707200 |}
                    11%N (includes_ci "ali") eq_refl eq_refl eq_refl)).
    vm_compute. reflexivity.
Defined.

Example bob_finds_alice :
  fst (searchUsers literal_RegExp env0 t_now "ali" bob_token (Some 200) None w_two)
  = Resolved [alice].
Proof. vm_compute. reflexivity. Qed.

Lemma same_day_same_fields t1 t2 :
  JSDate.Day t1 = JSDate.Day t2 ->
  JSDate.YearFromTime t1 = JSDate.YearFromTime t2 /\
  JSDate.MonthFromTime t1 = JSDate.MonthFromTime t2 /\
  JSDate.DateFromTime t1 = JSDate.DateFromTime t2 /\
  JSDate.TimeWithinDay t2 - JSDate.TimeWithinDay t1 = t2 - t1.
Proof.
  intros H.
  unfold JSDate.YearFromTime, JSDate.MonthFromTime, JSDate.DateFromTime.
  rewrite H. split; [reflexivity |]. split; [reflexivity |].
  split; [reflexivity |].
  unfold JSDate.Day, JSDate.TimeWithinDay in *.
  pose proof (Z.div_mod t1 JSDate.msPerDay) as E1.
  pose proof (Z.div_mod t2 JSDate.msPerDay) as E2.
  unfold JSDate.msPerDay in *.
  rewrite H in E1.
  generalize dependent (t1 mod 86400000). generalize dependent (t2 mod 86400000).
  generalize dependent (t2 / 86400000). intros. lia.
Qed.

(** [X19] With [minAge] and [maxAge] both given and equal to [n], the age
    condition accepts the birthdates from the first clock reading moved
    [n] years back to the second reading moved [n] years back.  When both
    readings give the same millisecond that is one instant; in a zone
    with a constant offset and for two readings on the same local day, the
    window is exactly as long as the time between the two readings. *)
Theorem X19_equal_bounds_window zone now1 now2 n u :
  (user_matches (ageCondition_at zone now1 now2 (Some n) (Some n)) u = true
   <-> years_ago zone now1 n <= User.birthdate u <= years_ago zone now2 n) /\
  (now1 = now2 ->
   (user_matches (ageCondition_at zone now1 now2 (Some n) (Some n)) u = true
    <-> User.birthdate u = years_ago zone now1 n)) /\
  (forall offset : Z,
      zone = JSDate.fixed offset ->
      JSDate.Day (now1 + offset) = JSDate.Day (now2 + offset) ->
      years_ago zone now2 n - years_ago zone now1 n = now2 - now1).
Proof.
  assert (E : ageCondition_at zone now1 now2 (Some n) (Some n)
              = [FBirthdate [Gte (years_ago zone now1 n);
                             Lte (years_ago zone now2 n)]]).
  { unfold ageCondition_at, years_ago. now rewrite Z.leb_refl. }
  rewrite E. split; [| split].
  - generalize (years_ago zone now1 n) (years_ago zone now2 n). intros lo hi.
    apply user_matches_window.
  - intros <-. generalize (years_ago zone now1 n). intros lo.
    rewrite user_matches_window. lia.
  - intros offset -> Hday.
    destruct (same_day_same_fields _ _ Hday) as (Hy & Hm & Hd & Ht).
    unfold years_ago, JSDate.setFullYear, JSDate.getFullYear, JSDate.LocalTime,
      JSDate.UTC, JSDate.MakeDate, JSDate.fixed.
    cbn [JSDate.offset_at JSDate.offset_at_local].
    rewrite Hy, Hm, Hd.
    generalize (JSDate.MakeDay (JSDate.YearFromTime (now2 + offset) - n)
                  (JSDate.MonthFromTime (now2 + offset))
                  (JSDate.DateFromTime (now2 + offset))).
    intros day.
    generalize dependent (JSDate.TimeWithinDay (now2 + offset)).
    generalize dependent (JSDate.TimeWithinDay (now1 + offset)).
    intros tw1 tw2 Ht. unfold JSDate.msPerDay. lia.
Qed.

Lemma X19_equal_bounds_window_witness :
  (t_now = t_now ->
   (user_matches (ageCondition_at 0 t_now t_now (Some 30) (Some 30))
      (User.mk 13%N "Dave" None "dave" (years_ago 0 t_now 30)) = true
    <-> years_ago 0 t_now 30 = years_ago 0 t_now 30)) /\
  years_ago 0 (t_now + 2) 30 - years_ago 0 t_now 30 = t_now + 2 - t_now.
Proof.
  pose proof (X19_equal_bounds_window 0 t_now (t_now + 2) 30
                (User.mk 13%N "Dave" None "dave" (years_ago 0 t_now 30)))
    as (_ & _ & H3).
  pose proof (X19_equal_bounds_window 0 t_now t_now 30
                (User.mk 13%N "Dave" None "dave" (years_ago 0 t_now 30)))
    as (_ & H2 & _).
  split; [exact H2 |].
  apply (H3 0); [reflexivity | vm_compute; reflexivity].
Defined.

(** A user who turned thirty some months ago is not matched by
    [minAge = maxAge = 30]; with [maxAge = 31] the same user is. *)
Example thirty_years_old_not_matched :
  let dave := User.mk 13%N "Dave" None "dave" 833587200000 in
  user_matches (ageCondition 0 t_now (Some 30) (Some 30)) dave = false /\
  user_matches (ageCondition 0 t_now (Some 30) (Some 31)) dave = true.
Proof. vm_compute. split; reflexivity. Qed.

(** ** More on deleting and unblocking *)

Lemma delete_first_absent o l :
  List.find (has_id o) l = None -> delete_first o l = l.
Proof.
  induction l as [| u l IH]; cbn; [reflexivity |].
  destruct (has_id o u); [discriminate |]. intros H. now rewrite IH.
Qed.

Lemma has_id_other o o' u : o' <> o -> has_id o u = true -> has_id o' u = false.
Proof.
  unfold has_id. intros Hne H. apply ObjectId_eqb_eq in H.
  apply not_true_is_false. intros H'. apply ObjectId_eqb_eq in H'. congruence.
Qed.

Lemma find_delete_first_other o o' l :
  o' <> o ->
  List.find (has_id o') (delete_first o l) = List.find (has_id o') l.
Proof.
  intros Hne. induction l as [| u l IH]; cbn; [reflexivity |].
  destruct (has_id o u) eqn:Hu.
  - now rewrite (has_id_other _ _ _ Hne Hu).
  - cbn. now rewrite IH.
Qed.

Lemma find_none_not_in o l :
  ~ In o (List.map User._id l) -> List.find (has_id o) l = None.
Proof.
  intros Hn. destruct (List.find (has_id o) l) as [u |] eqn:Hf; [| reflexivity].
  exfalso. apply Hn. apply find_some in Hf as [Hin Hid].
  apply ObjectId_eqb_eq in Hid. apply in_map_iff. eauto.
Qed.

Lemma find_delete_first_same o l :
  List.NoDup (List.map User._id l) ->
  List.find (has_id o) (delete_first o l) = None.
Proof.
  induction l as [| u l IH]; cbn; [reflexivity |].
  intros Hnd. inversion Hnd as [| ? ? Hu Hl]; subst.
  destruct (has_id o u) eqn:Hid.
  - apply ObjectId_eqb_eq in Hid. subst o. now apply find_none_not_in.
  - cbn. rewrite Hid. now apply IH.
Qed.

(** [X20] [deleteUser] with the token of an account that is no longer
    there (deleted before, the token still verifies) resolves to success
    all the same and leaves the users and the cache as they are. *)
Theorem X20_deleteUser_absent_account env token w p o :
  Jwt.verify token (secret env) = Some p ->
  ObjectId.cast (Jwt.id p) = Some o ->
  List.find (has_id o) (users w) = None ->
  fst (deleteUser env token w) = Resolved true /\
  users (snd (deleteUser env token w)) = users w /\
  redis (snd (deleteUser env token w)) = redis w.
Proof.
  intros Hv Ho Hf. rewrite (deleteUser_eq _ _ _ _ _ Hv Ho).
  cbn [fst snd users redis record set_blocks set_users].
  now rewrite (delete_first_absent _ _ Hf).
Qed.

Lemma X20_deleteUser_absent_account_witness :
  fst (deleteUser env0 carol_token w_two) = Resolved true /\
  users (snd (deleteUser env0 carol_token w_two)) = users w_two /\
  redis (snd (deleteUser env0 carol_token w_two)) = redis w_two.
Proof.
  apply (X20_deleteUser_absent_account env0 carol_token w_two
           {| Jwt.id := "00000000000000000000000c"; Jwt.iat := 1793707200 |}
           12%N);
    vm_compute; reflexivity.
Defined.

(** [X21] In a collection where no two users share an [_id], after
    [deleteUser] no user has the subject's [_id] any more, and looking up
    any other [_id] gives what it gave before. *)
Theorem X21_deleteUser_removes_the_account env token w p o :
  Jwt.verify token (secret env) = Some p ->
  ObjectId.cast (Jwt.id p) = Some o ->
  List.NoDup (List.map User._id (users w)) ->
  let w' := snd (deleteUser env token w) in
  List.find (has_id o) (users w') = None /\
  forall o', o' <> o ->
    List.find (has_id o') (users w') = List.find (has_id o') (users w).
Proof.
  intros Hv Ho Hnd w'. subst w'. rewrite (deleteUser_eq _ _ _ _ _ Hv Ho).
  cbn [snd users record set_blocks set_users]. split.
  - now apply find_delete_first_same.
  - intros o' Hne. now apply find_delete_first_other.
Qed.

Lemma X21_deleteUser_removes_the_account_witness :
  List.find (has_id 10%N) (users (snd (deleteUser env0 alice_token w_feud)))
    = None /\
  forall o', o' <> 10%N ->
    List.find (has_id o') (users (snd (deleteUser env0 alice_token w_feud)))
    = List.find (has_id o') (users w_feud).
Proof.
  apply (X21_deleteUser_removes_the_account env0 alice_token w_feud
           alice_payload 10%N); try (vm_compute; reflexivity).
  cbn. repeat constructor; cbn; intuition discriminate.
Defined.

Lemma filter_filter_same {A} (f : A -> bool) l :
  List.filter f (List.filter f l) = List.filter f l.
Proof.
  apply forallb_filter_id, forallb_forall. intros x Hx.
  now apply filter_In in Hx.
Qed.

(** [X22] [unblockUser] is idempotent on the block collection: whatever
    the arguments, a second call with the same arguments leaves the
    collection as the first call left it. *)
Theorem X22_unblockUser_idempotent env target token w :
  let w1 := snd (unblockUser env target token w) in
  blocks (snd (unblockUser env target token w1)) = blocks w1.
Proof.
  cbv zeta.
  destruct (Jwt.verify token (secret env)) as [p |] eqn:Hv.
  - destruct (ObjectId.cast (Jwt.id p)) as [a |] eqn:Ha.
    + destruct (ObjectId.cast target) as [b |] eqn:Hb.
      * rewrite !(unblockUser_eq _ _ _ _ _ _ _ Hv Ha Hb).
        cbn [snd blocks record set_blocks]. apply filter_filter_same.
      * unfold unblockUser, bind, jwt_verify, newObjectId, throw, ret.
        rewrite Hv, Ha, Hb. cbn. rewrite ?Hv, ?Ha, ?Hb. reflexivity.
    + unfold unblockUser, bind, jwt_verify, newObjectId, throw, ret.
      rewrite Hv, Ha. cbn. rewrite ?Hv, ?Ha. reflexivity.
  - unfold unblockUser, bind, jwt_verify. rewrite Hv. cbn. rewrite ?Hv.
    reflexivity.
Qed.

(** ** More on updating *)

Lemma updateUser_absent_eq env now token dto w p o :
  Jwt.verify token (secret env) = Some p ->
  ObjectId.cast (Jwt.id p) = Some o ->
  List.find (has_id o) (users w) = None ->
  updateUser env now token dto w
  = (Rejected (Error "User not found"), record (UserFindByIdAndUpdate o) w).
Proof.
  intros Hv Ho Hf. unfold updateUser.
  rewrite (bind_step _ _ _ _ _ (jwt_verify_ok _ _ _ _ Hv)).
  unfold User_findByIdAndUpdate. rewrite (castId_ok _ _ _ Ho).
  unfold bind. now rewrite Hf.
Qed.

Lemma updateUser_duplicate_eq env now token dto w p o u0 :
  Jwt.verify token (secret env) = Some p ->
  ObjectId.cast (Jwt.id p) = Some o ->
  List.find (has_id o) (users w) = Some u0 ->
  existsb (fun v => negb (has_id o v)
                    && String.eqb (User.username v)
                                  (User.username (apply_update dto u0)))
          (users w) = true ->
  updateUser env now token dto w
  = (Rejected MongoDuplicateKey, record (UserFindByIdAndUpdate o) w).
Proof.
  intros Hv Ho Hf Hd. unfold updateUser.
  rewrite (bind_step _ _ _ _ _ (jwt_verify_ok _ _ _ _ Hv)).
  unfold User_findByIdAndUpdate. rewrite (castId_ok _ _ _ Ho).
  unfold bind. now rewrite Hf, Hd.
Qed.

Lemma find_replace_first_other o o' u' l :
  o' <> o -> has_id o u' = true ->
  List.find (has_id o') (replace_first o u' l) = List.find (has_id o') l.
Proof.
  intros Hne Hid. induction l as [| v l IH]; cbn; [reflexivity |].
  destruct (has_id o v) eqn:Hv; cbn.
  - now rewrite (has_id_other _ _ _ Hne Hid), (has_id_other _ _ _ Hne Hv).
  - now rewrite IH.
Qed.

Lemma replace_first_same o u l :
  List.find (has_id o) l = Some u -> replace_first o u l = l.
Proof.
  induction l as [| v l IH]; cbn; [reflexivity |].
  destruct (has_id o v).
  - now intros [= ->].
  - intros H. now rewrite IH.
Qed.

Lemma length_replace_first o u' l :
  length (replace_first o u' l) = length l.
Proof.
  induction l as [| v l IH]; cbn; [reflexivity |].
  destruct (has_id o v); cbn; [reflexivity | now rewrite IH].
Qed.

(** [X23] [updateUser] with the token of an account that is no longer
    there rejects with "User not found"; users, blocks and cache stay as
    they are, so no cache entry is written for it. *)
Theorem X23_updateUser_absent_account env now token dto w p o :
  Jwt.verify token (secret env) = Some p ->
  ObjectId.cast (Jwt.id p) = Some o ->
  List.find (has_id o) (users w) = None ->
  fst (updateUser env now token dto w) = Rejected (Error "User not found") /\
  same_data w (snd (updateUser env now token dto w)).
Proof.
  intros Hv Ho Hf. rewrite (updateUser_absent_eq _ _ _ _ _ _ _ Hv Ho Hf).
  repeat split; reflexivity.
Qed.

Lemma X23_updateUser_absent_account_witness :
  fst (updateUser env0 t_now carol_token rename_alice w_two)
    = Rejected (Error "User not found") /\
  same_data w_two (snd (updateUser env0 t_now carol_token rename_alice w_two)).
Proof.
  apply (X23_updateUser_absent_account env0 t_now carol_token rename_alice w_two
           {| Jwt.id := "00000000000000000000000c"; Jwt.iat := 1793707200 |}
           12%N);
    vm_compute; reflexivity.
Defined.

(** [X24] A resolved [updateUser] touches one user only: the record it
    returns keeps the subject's [_id] and every field the body does not
    give, the user collection keeps its size, every other [_id] looks up
    the record it did before, and the block collection is unchanged. *)
Theorem X24_updateUser_frame env now token dto w u w' p o u0 :
  updateUser env now token dto w = (Resolved u, w') ->
  Jwt.verify token (secret env) = Some p ->
  ObjectId.cast (Jwt.id p) = Some o ->
  List.find (has_id o) (users w) = Some u0 ->
  User._id u = User._id u0 /\
  (u_name dto = None -> User.name u = User.name u0) /\
  (u_surname dto = None -> User.surname u = User.surname u0) /\
  (u_username dto = None -> User.username u = User.username u0) /\
  (u_birthdate dto = None -> User.birthdate u = User.birthdate u0) /\
  length (users w') = length (users w) /\
  (forall o', o' <> o ->
     List.find (has_id o') (users w') = List.find (has_id o') (users w)) /\
  blocks w' = blocks w.
Proof.
  intros H Hv Ho Hf.
  apply updateUser_resolved in H as (p' & o' & u0' & Hv' & Ho' & Hf' & Hu & ->).
  assert (p' = p) as -> by congruence.
  assert (o' = o) as -> by congruence.
  assert (u0' = u0) as -> by congruence.
  assert (Hid : has_id o u = true).
  { subst u. rewrite has_id_apply_update. eapply find_has_id; eauto. }
  subst u. cbn [users blocks record set_redis set_users].
  split; [reflexivity |].
  split; [intros E; cbn; now rewrite E |].
  split; [intros E; cbn; now rewrite E |].
  split; [intros E; cbn; now rewrite E |].
  split; [intros E; cbn; now rewrite E |].
  split; [apply length_replace_first |].
  split; [| reflexivity].
  intros o' Hne. now apply find_replace_first_other.
Qed.

Lemma X24_updateUser_frame_witness :
  User._id (User.mk 10%N "Alicia" (Some "Keys") "alice" 0) = User._id alice /\
  (u_name rename_alice = None ->
   User.name (User.mk 10%N "Alicia" (Some "Keys") "alice" 0) = User.name alice) /\
  (u_surname rename_alice = None ->
   User.surname (User.mk 10%N "Alicia" (Some "Keys") "alice" 0)
   = User.surname alice) /\
  (u_username rename_alice = None ->
   User.username (User.mk 10%N "Alicia" (Some "Keys") "alice" 0)
   = User.username alice) /\
  (u_birthdate rename_alice = None ->
   User.birthdate (User.mk 10%N "Alicia" (Some "Keys") "alice" 0)
   = User.birthdate alice) /\
  length (users (snd (updateUser env0 t_now alice_token rename_alice w_two)))
    = length (users w_two) /\
  (forall o', o' <> 10%N ->
     List.find (has_id o')
       (users (snd (updateUser env0 t_now alice_token rename_alice w_two)))
     = List.find (has_id o') (users w_two)) /\
  blocks (snd (updateUser env0 t_now alice_token rename_alice w_two))
    = blocks w_two.
Proof.
  apply (X24_updateUser_frame env0 t_now alice_token rename_alice w_two
           (User.mk 10%N "Alicia" (Some "Keys") "alice" 0)
           (snd (updateUser env0 t_now alice_token rename_alice w_two))
           alice_payload 10%N alice);
    vm_compute; reflexivity.
Defined.

Lemma updateUser_success_eq env now token dto w p o u0 :
  Jwt.verify token (secret env) = Some p ->
  ObjectId.cast (Jwt.id p) = Some o ->
  List.find (has_id o) (users w) = Some u0 ->
  existsb (fun v => negb (has_id o v)
                    && String.eqb (User.username v)
                                  (User.username (apply_update dto u0)))
          (users w) = false ->
  updateUser env now token dto w
  = (Resolved (apply_update dto u0),
     record (RedisSet (cache_key (Jwt.id p)) 3600)
       (set_redis
          (<[cache_key (Jwt.id p) :=
               {| value := JSON.stringify (apply_update dto u0);
                  expiresAt := now + 3600 * 1000 |}]> (redis w))
          (record (UserFindByIdAndUpdate o)
             (set_users (replace_first o (apply_update dto u0) (users w)) w)))).
Proof.
  intros Hv Ho Hf Hd. unfold updateUser.
  rewrite (bind_step _ _ _ _ _ (jwt_verify_ok _ _ _ _ Hv)).
  unfold User_findByIdAndUpdate. rewrite (castId_ok _ _ _ Ho).
  unfold bind at 1. rewrite Hf, Hd. reflexivity.
Qed.

Lemma NoDup_map_inj {A B} (f : A -> B) l x y :
  List.NoDup (List.map f l) -> In x l -> In y l -> f x = f y -> x = y.
Proof.
  induction l as [| z l IH]; cbn; [intros _ [] |].
  intros Hnd Hx Hy E. inversion Hnd as [| ? ? Hz Hl]; subst.
  destruct Hx as [-> | Hx], Hy as [-> | Hy]; auto.
  - exfalso. apply Hz. rewrite E. now apply in_map.
  - exfalso. apply Hz. rewrite <- E. now apply in_map.
Qed.

(** No other user holds the username [name]. *)
Lemma username_free o name l u0 :
  List.NoDup (List.map User.username l) ->
  List.find (has_id o) l = Some u0 ->
  User.username u0 = name ->
  existsb (fun v => negb (has_id o v) && String.eqb (User.username v) name) l
  = false.
Proof.
  intros Hnd Hf Hn. apply not_true_is_false. intros H.
  apply existsb_exists in H as (v & Hin & Hv).
  apply andb_true_iff in Hv as [Hid Hname].
  apply String.eqb_eq in Hname. apply find_some in Hf as [Hin0 Hid0].
  assert (v = u0) by (eapply NoDup_map_inj; eauto; congruence).
  subst v. rewrite Hid0 in Hid. discriminate.
Qed.

(** [X25] In a collection where no two users share a username, an update
    body with no field at all still resolves: the record and the user
    collection are unchanged, and the cache entry of the subject is
    rewritten with a fresh expiry of 3600 seconds. *)
Theorem X25_updateUser_empty_body env now token w p o u0 :
  Jwt.verify token (secret env) = Some p ->
  ObjectId.cast (Jwt.id p) = Some o ->
  List.find (has_id o) (users w) = Some u0 ->
  List.NoDup (List.map User.username (users w)) ->
  let dto := {| u_name := None; u_surname := None;
                u_username := None; u_birthdate := None |} in
  let w' := snd (updateUser env now token dto w) in
  fst (updateUser env now token dto w) = Resolved u0 /\
  users w' = users w /\
  redis w' !! cache_key (Jwt.id p)
  = Some {| value := JSON.stringify u0; expiresAt := now + 3600 * 1000 |}.
Proof.
  intros Hv Ho Hf Hnd dto w'. subst w'.
  assert (Hu : apply_update dto u0 = u0) by now destruct u0.
  rewrite (updateUser_success_eq env now token dto w p o u0 Hv Ho Hf).
  - rewrite Hu. cbn [fst snd users redis record set_redis set_users].
    rewrite (replace_first_same _ _ _ Hf).
    split; [reflexivity |]. split; [reflexivity | apply lookup_insert_eq].
  - rewrite Hu. eapply username_free; eauto.
Qed.

Lemma X25_updateUser_empty_body_witness :
  let dto := {| u_name := None; u_surname := None;
                u_username := None; u_birthdate := None |} in
  fst (updateUser env0 t_now alice_token dto w_two) = Resolved alice /\
  users (snd (updateUser env0 t_now alice_token dto w_two)) = users w_two /\
  redis (snd (updateUser env0 t_now alice_token dto w_two))
    !! cache_key (Jwt.id alice_payload)
  = Some {| value := JSON.stringify alice; expiresAt := t_now + 3600 * 1000 |}.
Proof.
  apply (X25_updateUser_empty_body env0 t_now alice_token w_two alice_payload
           10%N alice); try (vm_compute; reflexivity).
  cbn. repeat constructor; cbn; intuition discriminate.
Defined.

(** [X26] Taking the username of another user is refused: [updateUser]
    rejects with the duplicate-key error of the unique index on
    [username], and users, blocks and cache stay as they are. *)
Theorem X26_updateUser_username_taken env now token dto w p o u0 v name :
  Jwt.verify token (secret env) = Some p ->
  ObjectId.cast (Jwt.id p) = Some o ->
  List.find (has_id o) (users w) = Some u0 ->
  u_username dto = Some name ->
  In v (users w) -> User._id v <> o -> User.username v = name ->
  fst (updateUser env now token dto w) = Rejected MongoDuplicateKey /\
  same_data w (snd (updateUser env now token dto w)).
Proof.
  intros Hv Ho Hf Hn Hin Hid Hname.
  rewrite (updateUser_duplicate_eq env now token dto w p o u0 Hv Ho Hf).
  - repeat split; reflexivity.
  - apply existsb_exists. exists v. split; [exact Hin |].
    apply andb_true_iff. split.
    + apply negb_true_iff, not_true_is_false. intros E.
      apply ObjectId_eqb_eq in E. contradiction.
    + cbn. rewrite Hn. cbn. apply String.eqb_eq. exact Hname.
Qed.

Lemma X26_updateUser_username_taken_witness :
  fst (updateUser env0 t_now alice_token
         {| u_name := None; u_surname := None; u_username := Some "bob"%string;
            u_birthdate := None |} w_two)
    = Rejected MongoDuplicateKey /\
  same_data w_two
    (snd (updateUser env0 t_now alice_token
            {| u_name := None; u_surname := None;
               u_username := Some "bob"%string; u_birthdate := None |} w_two)).
Proof.
  apply (X26_updateUser_username_taken env0 t_now alice_token
           {| u_name := None; u_surname := None;
              u_username := Some "bob"%string; u_birthdate := None |}
           w_two alice_payload 10%N alice bob "bob"%string);
    try (vm_compute; reflexivity).
  - right. left. reflexivity.
  - vm_compute. discriminate.
Defined.

(** ** The invariant of the directory *)

Lemma well_formed_same_users w w' :
  users w' = users w -> (nextId w <= nextId w')%N ->
  well_formed w -> well_formed w'.
Proof.
  intros Hu Hn (H1 & H2 & H3). unfold well_formed. rewrite Hu.
  repeat split; auto. eapply List.Forall_impl; [| exact H3].
  cbn. intros u Hlt. lia.
Qed.

Lemma In_replace_first o u' l x :
  In x (replace_first o u' l) -> In x l \/ x = u'.
Proof.
  induction l as [| v l IH]; cbn; [tauto |].
  destruct (has_id o v); cbn; intros [H | H]; auto.
  destruct (IH H); auto.
Qed.

Lemma map_id_replace_first o u' l :
  has_id o u' = true ->
  List.map User._id (replace_first o u' l) = List.map User._id l.
Proof.
  intros Hid. apply ObjectId_eqb_eq in Hid.
  induction l as [| v l IH]; cbn; [reflexivity |].
  destruct (has_id o v) eqn:Hv; cbn.
  - apply ObjectId_eqb_eq in Hv. congruence.
  - now rewrite IH.
Qed.

Lemma usernames_replace_first o u' l :
  List.NoDup (List.map User._id l) ->
  List.NoDup (List.map User.username l) ->
  existsb (fun v => negb (has_id o v)
                    && String.eqb (User.username v) (User.username u')) l
  = false ->
  List.NoDup (List.map User.username (replace_first o u' l)).
Proof.
  induction l as [| v l IH]; cbn; [constructor |].
  intros Hid Hname Hex.
  inversion Hid as [| ? ? Hv Hl]; subst.
  inversion Hname as [| ? ? Hv' Hl']; subst.
  apply orb_false_iff in Hex as [Hhead Htail].
  destruct (has_id o v) eqn:Ho; cbn.
  - constructor; [| exact Hl'].
    intros Hin. apply in_map_iff in Hin as (x & Hx & Hinx).
    assert (Hx' : negb (has_id o x)
                  && String.eqb (User.username x) (User.username u') = false).
    { destruct (existsb_exists
                  (fun v => negb (has_id o v)
                            && String.eqb (User.username v) (User.username u'))
                  l) as [_ Hall].
      apply not_true_is_false. intros E. rewrite Hall in Htail; eauto.
      discriminate. }
    rewrite Hx, String.eqb_refl, andb_true_r in Hx'.
    apply negb_false_iff in Hx'. apply ObjectId_eqb_eq in Hx', Ho.
    apply Hv. rewrite Ho, <- Hx'. now apply in_map.
  - constructor; [| now apply IH].
    intros Hin. apply in_map_iff in Hin as (x & Hx & Hinx).
    apply In_replace_first in Hinx as [Hinx | ->].
    + apply Hv'. rewrite <- Hx. now apply in_map.
    + cbn in Hhead. rewrite Hx, String.eqb_refl in Hhead. discriminate.
Qed.

Lemma In_delete_first o l x : In x (delete_first o l) -> In x l.
Proof.
  induction l as [| v l IH]; cbn; [tauto |].
  destruct (has_id o v); cbn; [tauto |]. intros [H | H]; auto.
Qed.

Lemma NoDup_map_delete_first {B} (f : User.t -> B) o l :
  List.NoDup (List.map f l) -> List.NoDup (List.map f (delete_first o l)).
Proof.
  induction l as [| v l IH]; cbn; [constructor |].
  intros Hnd. inversion Hnd as [| ? ? Hv Hl]; subst.
  destruct (has_id o v); cbn; [exact Hl |].
  constructor; [| now apply IH].
  intros Hin. apply in_map_iff in Hin as (x & Hx & Hinx).
  apply In_delete_first in Hinx. apply Hv. rewrite <- Hx. now apply in_map.
Qed.

Lemma createUser_well_formed env now dto w :
  well_formed w -> well_formed (snd (createUser env now dto w)).
Proof.
  intros (H1 & H2 & H3).
  unfold createUser, bind, User_new, User_save, ret.
  cbn [User.name User.username users set_nextId nextId].
  destruct (_ || _).
  { apply (well_formed_same_users w); cbn; [reflexivity | lia |].
    now repeat split. }
  destruct (existsb _ (users w)) eqn:Hex.
  { apply (well_formed_same_users w); cbn; [reflexivity | lia |].
    now repeat split. }
  cbn. unfold well_formed. cbn [users nextId record set_users set_nextId].
  rewrite !List.map_app. cbn [List.map User._id User.username].
  split; [| split].
  - apply NoDup_snoc; [exact H1 |]. intros Hin.
    apply in_map_iff in Hin as (x & Hx & Hinx).
    rewrite List.Forall_forall in H3. specialize (H3 x Hinx). cbn in H3. lia.
  - apply NoDup_snoc; [exact H2 |]. intros Hin.
    apply in_map_iff in Hin as (x & Hx & Hinx).
    assert (E : existsb (fun u => String.eqb (User.username u) (c_username dto))
                        (users w) = true).
    { apply existsb_exists. exists x. split; [exact Hinx |].
      now apply String.eqb_eq. }
    congruence.
  - apply List.Forall_app. split.
    + eapply List.Forall_impl; [| exact H3]. cbn. intros u Hlt. lia.
    + constructor; [cbn; lia | constructor].
Qed.

Lemma updateUser_well_formed env now token dto w :
  well_formed w -> well_formed (snd (updateUser env now token dto w)).
Proof.
  intros Hwf.
  destruct (Jwt.verify token (secret env)) as [p |] eqn:Hv.
  2:{ unfold updateUser, bind, jwt_verify. rewrite Hv. exact Hwf. }
  destruct (ObjectId.cast (Jwt.id p)) as [o |] eqn:Ho.
  2:{ unfold updateUser.
      rewrite (bind_step _ _ _ _ _ (jwt_verify_ok _ _ _ _ Hv)).
      unfold User_findByIdAndUpdate, castId. rewrite Ho. exact Hwf. }
  destruct (List.find (has_id o) (users w)) as [u0 |] eqn:Hf.
  2:{ rewrite (updateUser_absent_eq _ _ _ _ _ _ _ Hv Ho Hf).
      apply (well_formed_same_users w); cbn; [reflexivity | lia | exact Hwf]. }
  destruct (existsb (fun v => negb (has_id o v)
                              && String.eqb (User.username v)
                                   (User.username (apply_update dto u0)))
                    (users w)) eqn:Hd.
  { rewrite (updateUser_duplicate_eq _ _ _ _ _ _ _ _ Hv Ho Hf Hd).
    apply (well_formed_same_users w); cbn; [reflexivity | lia | exact Hwf]. }
  rewrite (updateUser_success_eq _ _ _ _ _ _ _ _ Hv Ho Hf Hd).
  destruct Hwf as (H1 & H2 & H3).
  assert (Hid : has_id o (apply_update dto u0) = true).
  { rewrite has_id_apply_update. eapply find_has_id; eauto. }
  unfold well_formed. cbn [snd users nextId record set_redis set_users].
  split; [| split].
  - now rewrite map_id_replace_first.
  - now apply usernames_replace_first.
  - apply List.Forall_forall. intros x Hx.
    rewrite List.Forall_forall in H3.
    apply In_replace_first in Hx as [Hx | ->]; [now apply H3 |].
    apply find_some in Hf as [Hin _]. apply (H3 u0 Hin).
Qed.

Lemma deleteUser_well_formed env token w :
  well_formed w -> well_formed (snd (deleteUser env token w)).
Proof.
  intros Hwf.
  destruct (Jwt.verify token (secret env)) as [p |] eqn:Hv.
  2:{ unfold deleteUser, bind, jwt_verify. rewrite Hv. exact Hwf. }
  destruct (ObjectId.cast (Jwt.id p)) as [o |] eqn:Ho.
  2:{ unfold deleteUser.
      rewrite (bind_step _ _ _ _ _ (jwt_verify_ok _ _ _ _ Hv)).
      unfold User_findByIdAndDelete, castId. rewrite Ho. exact Hwf. }
  rewrite (deleteUser_eq _ _ _ _ _ Hv Ho).
  destruct Hwf as (H1 & H2 & H3).
  unfold well_formed. cbn [snd users nextId record set_blocks set_users].
  split; [| split].
  - now apply NoDup_map_delete_first.
  - now apply NoDup_map_delete_first.
  - apply List.Forall_forall. intros x Hx. rewrite List.Forall_forall in H3.
    apply H3. eapply In_delete_first; eauto.
Qed.

Lemma getUser_users_nextId env now token w :
  users (snd (getUser env now token w)) = users w /\
  nextId (snd (getUser env now token w)) = nextId w.
Proof.
  unfold getUser, bind, jwt_verify, redis_get, User_findById, castId, redis_set,
    throw, ret.
  destruct (Jwt.verify token (secret env)) as [p |]; [| now cbn].
  destruct (redis w !! cache_key (Jwt.id p)) as [e |];
    [destruct (now <? expiresAt e); [now cbn |] |].
  all: destruct (ObjectId.cast (Jwt.id p)) as [o |]; [| now cbn].
  all: cbn [users record];
    destruct (List.find (has_id o) (users w)) as [u |]; now cbn.
Qed.

Lemma searchUsers_nextId RegExp env now username token minAge maxAge w :
  nextId (snd (searchUsers RegExp env now username token minAge maxAge w))
  = nextId w.
Proof. apply searchUsers_at_frame. Qed.

Lemma unblockUser_users_nextId env target token w :
  users (snd (unblockUser env target token w)) = users w /\
  nextId (snd (unblockUser env target token w)) = nextId w.
Proof.
  unfold unblockUser, bind, jwt_verify, newObjectId, Block_deleteMany, throw, ret.
  destruct (Jwt.verify token (secret env)) as [p |]; [| now cbn].
  destruct (ObjectId.cast (Jwt.id p)) as [a |]; [| now cbn].
  destruct (ObjectId.cast target) as [b |]; now cbn.
Qed.

(** [X27] A directory in which no two users share an [_id], no two share
    a [username] and every [_id] lies below the id generator stays so
    under every method of the service, whatever the arguments and the
    outcome. *)
Theorem X27_well_formed_is_kept
    RegExp env now token id username minAge maxAge cdto udto w :
  well_formed w ->
  well_formed (snd (createUser env now cdto w)) /\
  well_formed (snd (getUsers w)) /\
  well_formed (snd (getUser env now token w)) /\
  well_formed (snd (deleteUser env token w)) /\
  well_formed (snd (blockUser env id token w)) /\
  well_formed (snd (searchUsers RegExp env now username token minAge maxAge w)) /\
  well_formed (snd (unblockUser env id token w)) /\
  well_formed (snd (updateUser env now token udto w)).
Proof.
  intros Hwf.
  split; [now apply createUser_well_formed |].
  split.
  { apply (well_formed_same_users w); cbn; [reflexivity | lia | exact Hwf]. }
  split.
  { destruct (getUser_users_nextId env now token w) as [Hu Hn].
    apply (well_formed_same_users w); [exact Hu | lia | exact Hwf]. }
  split; [now apply deleteUser_well_formed |].
  split.
  { destruct (blockUser_effect env id token w) as (Hu & _ & Hn & _).
    apply (well_formed_same_users w); [exact Hu | exact Hn | exact Hwf]. }
  split.
  { destruct (searchUsers_frame RegExp env now username token minAge maxAge w)
      as (Hu & _ & _).
    apply (well_formed_same_users w); [exact Hu | | exact Hwf].
    rewrite searchUsers_nextId. lia. }
  split; [| now apply updateUser_well_formed].
  destruct (unblockUser_users_nextId env id token w) as [Hu Hn].
  apply (well_formed_same_users w); [exact Hu | lia | exact Hwf].
Qed.

Lemma well_formed_empty : well_formed empty_world.
Proof. repeat split; constructor. Qed.

(** In the directory of Alice and Bob: a third sign-up, Alice taking a new
    username, and Alice deleting her account. *)
Lemma X27_well_formed_is_kept_witness :
  well_formed
    (snd (createUser env0 t_now
            {| c_name := "Carol"; c_surname := None; c_username := "carol";
               c_birthdate := 1149120000000 |} w_two)) /\
  well_formed (snd (deleteUser env0 alice_token w_two)) /\
  well_formed
    (snd (updateUser env0 t_now alice_token
            {| u_name := None; u_surname := None;
               u_username := Some "alicia"%string; u_birthdate := None |}
            w_two)).
Proof.
  assert (Hwf : well_formed w_two).
  { unfold well_formed. cbn.
    repeat split; repeat constructor; cbn; try lia; intuition discriminate. }
  pose proof (X27_well_formed_is_kept literal_RegExp env0 t_now alice_token
                "00000000000000000000000b"%string "bob"%string None None
                {| c_name := "Carol"; c_surname := None; c_username := "carol";
                   c_birthdate := 1149120000000 |}
                {| u_name := None; u_surname := None;
                   u_username := Some "alicia"%string; u_birthdate := None |}
                w_two Hwf)
    as (H1 & _ & _ & H4 & _ & _ & _ & H8).
  split; [exact H1 |]. split; [exact H4 | exact H8].
Defined.

Example directory_after_updates :
  List.map User.username
    (users (snd (updateUser env0 t_now alice_token
                   {| u_name := None; u_surname := None;
                      u_username := Some "alicia"%string; u_birthdate := None |}
                   w_two)))
    = ["alicia"; "bob"]%string /\
  List.map User._id
    (users (snd (createUser env0 t_now
                   {| c_name := "Carol"; c_surname := None;
                      c_username := "carol"; c_birthdate := 1149120000000 |}
                   w_two)))
    = [10%N; 11%N; 12%N].
Proof. vm_compute. split; reflexivity. Qed.

(** ** More on signing up *)

Lemma createUser_redis env now dto w :
  redis (snd (createUser env now dto w)) = redis w /\
  blocks (snd (createUser env now dto w)) = blocks w.
Proof.
  unfold createUser, bind, User_new, User_save, ret.
  cbn [User.name User.username users set_nextId].
  destruct (_ || _); [now cbn |].
  destruct (existsb _ (users w)); now cbn.
Qed.

(** [X28] Signing up with a username that a user already has is refused:
    [createUser] rejects with the duplicate-key error of the unique index
    on [username], the user collection is unchanged and no token is
    issued. *)
Theorem X28_createUser_username_taken env now dto w v :
  c_name dto <> EmptyString ->
  c_username dto <> EmptyString ->
  In v (users w) ->
  User.username v = c_username dto ->
  fst (createUser env now dto w) = Rejected MongoDuplicateKey /\
  same_data w (snd (createUser env now dto w)).
Proof.
  intros Hn Hu Hin Hv.
  apply String.eqb_neq in Hn, Hu.
  assert (E : existsb (fun u => String.eqb (User.username u) (c_username dto))
                      (users w) = true).
  { apply existsb_exists. exists v. split; [exact Hin |].
    now apply String.eqb_eq. }
  unfold createUser, bind, User_new, User_save, ret, same_data.
  cbn [User.name User.username users set_nextId].
  rewrite Hn, Hu, E. cbn. repeat split; reflexivity.
Qed.

Lemma X28_createUser_username_taken_witness :
  fst (createUser env0 t_now
         {| c_name := "Robert"; c_surname := None; c_username := "bob";
            c_birthdate := 0 |} w_two)
    = Rejected MongoDuplicateKey /\
  same_data w_two
    (snd (createUser env0 t_now
            {| c_name := "Robert"; c_surname := None; c_username := "bob";
               c_birthdate := 0 |} w_two)).
Proof.
  apply (X28_createUser_username_taken env0 t_now
           {| c_name := "Robert"; c_surname := None; c_username := "bob";
              c_birthdate := 0 |} w_two bob).
  - discriminate.
  - discriminate.
  - right. left. reflexivity.
  - reflexivity.
Defined.

(** [X29] Sign up, then fetch: in a well-formed directory whose id
    generator is within 12 bytes, the token [createUser] returns makes a
    following [getUser] resolve to the very user that was saved, provided
    the cache holds no live entry under the new user's key. *)
Theorem X29_createUser_then_getUser env now now' dto w u token w' :
  createUser env now dto w = (Resolved (u, token), w') ->
  well_formed w ->
  (nextId w < 2 ^ 96)%N ->
  cached now' (cache_key (ObjectId.toHexString (nextId w))) w = None ->
  fst (getUser env now' token w') = Resolved (Some u).
Proof.
  intros H (_ & _ & Hbelow) Hb Hc.
  apply (createUser_then_getUser env now now' dto w u token w' H Hb).
  - apply find_none_not_in. intros Hin.
    apply in_map_iff in Hin as (x & Hx & Hinx).
    rewrite List.Forall_forall in Hbelow. specialize (Hbelow x Hinx).
    cbn in Hbelow. lia.
  - pose proof (createUser_redis env now dto w) as [Hr _].
    rewrite H in Hr. cbn in Hr. unfold cached in *. now rewrite Hr.
Qed.

Lemma X29_createUser_then_getUser_witness :
  fst (getUser env0 (t_now + 1) carol_token
         (snd (createUser env0 t_now
                 {| c_name := "Carol"; c_surname := None; c_username := "carol";
                    c_birthdate := 1149120000000 |} w_two)))
  = Resolved (Some carol).
Proof.
  apply (X29_createUser_then_getUser env0 t_now (t_now + 1)
           {| c_name := "Carol"; c_surname := None; c_username := "carol";
              c_birthdate := 1149120000000 |} w_two carol carol_token).
  - vm_compute. reflexivity.
  - unfold well_formed. cbn.
    repeat split; repeat constructor; cbn; try lia; intuition discriminate.
  - vm_compute. reflexivity.
  - vm_compute. reflexivity.
Defined.

(** [X30] A sign-up whose [name] or [username] is the empty string is
    refused by the schema's [required] check before anything reaches the
    collection: [createUser] rejects with a validation error, and users,
    blocks and cache stay as they are. *)
Theorem X30_createUser_required_fields env now dto w :
  c_name dto = EmptyString \/ c_username dto = EmptyString ->
  fst (createUser env now dto w) = Rejected ValidationError /\
  same_data w (snd (createUser env now dto w)) /\
  log (snd (createUser env now dto w)) = log w.
Proof.
  intros H.
  assert (E : String.eqb (c_name dto) "" || String.eqb (c_username dto) ""
              = true).
  { destruct H as [-> | ->]; cbn; [reflexivity | apply orb_true_r]. }
  unfold createUser, bind, User_new, User_save, ret, same_data.
  cbn [User.name User.username users set_nextId].
  rewrite E. cbn. repeat split; reflexivity.
Qed.

Lemma X30_createUser_required_fields_witness :
  fst (createUser env0 t_now
         {| c_name := "Eve"; c_surname := None; c_username := "";
            c_birthdate := 0 |} w_two)
    = Rejected ValidationError /\
  same_data w_two
    (snd (createUser env0 t_now
            {| c_name := "Eve"; c_surname := None; c_username := "";
               c_birthdate := 0 |} w_two)) /\
  log (snd (createUser env0 t_now
              {| c_name := "Eve"; c_surname := None; c_username := "";
                 c_birthdate := 0 |} w_two))
    = log w_two.
Proof.
  apply (X30_createUser_required_fields env0 t_now
           {| c_name := "Eve"; c_surname := None; c_username := "";
              c_birthdate := 0 |} w_two).
  right. reflexivity.
Defined.
